(** * OrderBook.ts: a shallow embedding and its verified properties

    The class [OrderBook] of [src/OrderBook.ts] keeps one array of price
    levels, mutated in place by [handleSnapshot] and [handleDelta] and read by
    the analytics ([getBestAsk], [getBestBid], the spreads and
    [getEstimatedSlippage]).

    Modelling choices:
    - a JavaScript [number] that holds a price, a quantity or an order size
      is an exact rational ([Q]); compared with [===] it is compared with
      [Qeq_bool].  NaN and the infinities are outside the model, and so is
      the rounding of a double: where the source adds, subtracts,
      multiplies or divides, the model computes in exact arithmetic.
      Comparisons come out as they do on doubles.  [Module Double] has
      the slippage estimate on binary64 numbers, to show where rounding
      makes the program leave the exact result;
    - a [number] that holds an index, an offset, a count, a depth or a
      timestamp is an integer ([Z]);
    - an array is a [list]; [splice], [findIndex], [filter], [push], indexing
      and the (stable) [sort] are written out in [Module JsArray];
    - a method is a state transformer over the object's fields that either
      returns or throws ([Method]). *)

From Stdlib Require Import List ZArith QArith Qabs Qround Qminmax String Bool.
From Stdlib Require Import PrimFloat.
From Stdlib Require Import Lia Lqa Permutation Sorted.
Import ListNotations.

Open Scope Z_scope.

(** ** JavaScript arrays *)

Module JsArray.

Section Ops.
Context {A : Type}.

(** [arr.length] *)
Definition length (l : list A) : Z := Z.of_nat (List.length l).

(** [arr[i]], [undefined] (here [None]) outside [0 .. length-1]. *)
Definition get (l : list A) (i : Z) : option A :=
  if i <? 0 then None else nth_error l (Z.to_nat i).

(** [arr.push(x)] *)
Definition push (x : A) (l : list A) : list A := l ++ [x].

(** [arr.splice(start, deleteCount, ...items)]: the array after the call.
    A negative [start] counts from the end, both arguments are clamped to
    the array. *)
Definition splice (start deleteCount : Z) (items : list A) (l : list A)
  : list A :=
  let len := length l in
  let actualStart :=
    if start <? 0 then Z.max (len + start) 0 else Z.min start len in
  let actualDeleteCount :=
    Z.min (Z.max deleteCount 0) (len - actualStart) in
  firstn (Z.to_nat actualStart) l
    ++ items
    ++ skipn (Z.to_nat (actualStart + actualDeleteCount)) l.

(** [arr.findIndex(p)]: the first index whose element satisfies [p],
    [-1] when there is none. *)
Fixpoint findIndexFrom (p : A -> bool) (i : Z) (l : list A) : Z :=
  match l with
  | [] => -1
  | x :: rest => if p x then i else findIndexFrom p (i + 1) rest
  end.

Definition findIndex (p : A -> bool) (l : list A) : Z :=
  findIndexFrom p 0 l.

(** [arr.sort(cmp)].  The sort of ECMAScript is stable, so for a
    consistent comparator its result is the one of a stable insertion
    sort: [x] goes behind exactly the elements it compares greater than. *)
Fixpoint insertSorted (cmp : A -> A -> Q) (x : A) (l : list A) : list A :=
  match l with
  | [] => [x]
  | y :: rest =>
      if Qlt_le_dec 0 (cmp x y)
      then y :: insertSorted cmp x rest
      else x :: y :: rest
  end.

Definition sort (cmp : A -> A -> Q) (l : list A) : list A :=
  fold_right (insertSorted cmp) [] l.

End Ops.

End JsArray.

(** ** Price levels *)

Inductive Side : Type := Buy | Sell.

Definition Side_eqb (a b : Side) : bool :=
  match a, b with
  | Buy, Buy | Sell, Sell => true
  | _, _ => false
  end.

(** A level is the tuple [[symbol, price, side, qty, extraState?]]; the
    source reads its components as [level[EnumLevelProperty.price]] and so
    on, which the projections of this module mirror. *)
Module EnumLevelProperty.

Record OrderBookLevelState (ExtraStateType : Type) : Type := mkLevel {
  symbol : string;
  price : Q;
  side : Side;
  qty : Q;
  extraState : option ExtraStateType
}.

Arguments mkLevel {ExtraStateType} _ _ _ _ _.
Arguments symbol {ExtraStateType} _.
Arguments price {ExtraStateType} _.
Arguments side {ExtraStateType} _.
Arguments qty {ExtraStateType} _.
Arguments extraState {ExtraStateType} _.

End EnumLevelProperty.

Export EnumLevelProperty (OrderBookLevelState).

(** ** Errors

    Every failure of the class is a plain [Error]; the four throw sites are
    told apart by their message.  The constructors carry the names the
    specification gives them. *)

Inductive Error : Type :=
| StaleUpdateError
| InvalidArgument
| NoLiquidity
| InsufficientLiquidity.

Definition message (e : Error) : string :=
  match e with
  | StaleUpdateError => "Received data older than last tick: [object Object]"
  | InvalidArgument => "Order size is not positive!"
  | NoLiquidity => "No relevant levels found in orderbook!"
  | InsufficientLiquidity => "Could not fill the entire order"
  end.

(** How a method call ends: it returns a value or throws. *)
Inductive Completion (A : Type) : Type :=
| Return (a : A)
| Throw (e : Error).

Arguments Return {A} _.
Arguments Throw {A} _.

(** ** Constructor options *)

(** [options.maxDepth] is a [number] or missing; [NaN] is the one falsy
    number besides zero. *)
Inductive MaxDepthOption : Type :=
| MaxDepthOmitted
| MaxDepthNaN
| MaxDepthNumber (n : Z).

Record OrderBookOptions : Type := mkOptions {
  checkTimestamps : option bool;
  optMaxDepth : MaxDepthOption;
  traceLog : option bool
}.

(** [options = {}] *)
Definition noOptions : OrderBookOptions :=
  mkOptions None MaxDepthOmitted None.

(** [m || dflt] on the depth option. *)
Definition maxDepthOr (m : MaxDepthOption) (dflt : Z) : Z :=
  match m with
  | MaxDepthOmitted | MaxDepthNaN => dflt
  | MaxDepthNumber n => if n =? 0 then dflt else n
  end.

(** [x.toFixed(0)] read back as a number: the nearest integer, a tie going
    away from zero. *)
Definition toFixed0 (x : Q) : Z :=
  let n := Qfloor (Qabs x + (1 # 2)) in
  if Qlt_le_dec x 0 then - n else n.

(** ** The slippage estimate in doubles

    The methods above the walk only compare numbers, which the exact
    rationals of the main model do as doubles do.  [getEstimatedSlippage]
    also subtracts, multiplies and divides, and there a double rounds.
    This module is the same method on binary64 numbers, operation for
    operation, as a function of the array it reads; it is what the
    estimate of the exact model is measured against. *)

Module Double.

Section Estimate.

Context {ExtraStateType : Type}.

Record OrderBookLevelState : Type := mkLevel {
  symbol : string;
  price : float;
  side : Side;
  qty : float;
  extraState : option ExtraStateType
}.

Definition isSide (s : Side) (e : OrderBookLevelState) : bool :=
  Side_eqb (side e) s.

(** [Math.min] on two numbers: [NaN] if either is, and [-0] below [+0]. *)
Definition min (a b : float) : float :=
  if is_nan a then a
  else if is_nan b then b
  else if (a <? b)%float then a
  else if (b <? a)%float then b
  else if get_sign a then a
  else b.

(** [arr.sort(cmp)] with a comparator that answers a double: stable, [x]
    goes behind the elements it compares greater than. *)
Fixpoint insertSorted {A} (cmp : A -> A -> float) (x : A) (l : list A)
  : list A :=
  match l with
  | [] => [x]
  | y :: rest =>
      if (0 <? cmp x y)%float
      then y :: insertSorted cmp x rest
      else x :: y :: rest
  end.

Definition sort {A} (cmp : A -> A -> float) (l : list A) : list A :=
  fold_right (insertSorted cmp) [] l.

(** Truthiness of a [number | null]: [null], both zeros and [NaN] are
    falsy. *)
Definition falsy (x : option float) : bool :=
  match x with
  | None => true
  | Some f => is_zero f || is_nan f
  end.

Definition getBestAsk (offset : Z) (book : list OrderBookLevelState)
  : option float :=
  let sellSide := filter (isSide Sell) book in
  let index := JsArray.length sellSide - 1 - offset in
  option_map price (JsArray.get sellSide (Z.abs index)).

Definition getBestBid (offset : Z) (book : list OrderBookLevelState)
  : option float :=
  let buySide := filter (isSide Buy) book in
  option_map price (JsArray.get buySide (Z.abs offset)).

Record Slippage : Type := mkSlippage {
  executionPrice : float;
  slippagePercent : float;
  slippageBasisPoints : float
}.

Definition fillOrder (s : Side) (a b : OrderBookLevelState) : float :=
  match s with
  | Buy => (price a - price b)%float
  | Sell => (price b - price a)%float
  end.

Fixpoint fillLevels (levels : list OrderBookLevelState)
    (remainingSize totalCost : float) : float * float :=
  match levels with
  | [] => (remainingSize, totalCost)
  | level :: rest =>
      let fillQty := min remainingSize (qty level) in
      let totalCost' := (totalCost + fillQty * price level)%float in
      let remainingSize' := (remainingSize - fillQty)%float in
      if (remainingSize' <=? 0)%float then (remainingSize', totalCost')
      else fillLevels rest remainingSize' totalCost'
  end.

Definition getEstimatedSlippage (baseOrderSize : float) (s : Side)
    (book : list OrderBookLevelState) : Completion (option Slippage) :=
  if (baseOrderSize <=? 0)%float then Throw InvalidArgument
  else
    let relevantLevels :=
      filter (isSide match s with Buy => Sell | Sell => Buy end) book in
    if JsArray.length relevantLevels =? 0 then Throw NoLiquidity
    else
      let sortedLevels := sort (fillOrder s) relevantLevels in
      let '(remainingSize, totalCost) :=
        fillLevels sortedLevels baseOrderSize 0%float in
      if (0 <? remainingSize)%float then Throw InsufficientLiquidity
      else
        let executionPrice := (totalCost / baseOrderSize)%float in
        let bestPrice :=
          match s with
          | Buy => getBestAsk 0 book
          | Sell => getBestBid 0 book
          end in
        match bestPrice with
        | None => Return None
        | Some best =>
            if falsy bestPrice then Return None
            else
              let slippagePercent :=
                match s with
                | Buy => ((executionPrice / best - 1) * 100)%float
                | Sell => ((best / executionPrice - 1) * 100)%float
                end in
              Return (Some (mkSlippage executionPrice slippagePercent
                              (slippagePercent * 100)%float))
        end.

End Estimate.

Arguments OrderBookLevelState : clear implicits.

(** A level with no symbol of interest and no extra state. *)
Definition lvl (p : float) (s : Side) (q : float)
  : OrderBookLevelState unit :=
  mkLevel "BTCUSDT" p s q None.

End Double.

Section OrderBook.

Context {ExtraStateType : Type}.

#[local] Abbreviation Level := (OrderBookLevelState ExtraStateType).

Import EnumLevelProperty.

(** ** The object *)

Record OrderBook : Type := mkOrderBook {
  bookSymbol : string;
  book : list Level;
  shouldCheckTimestamps : bool;
  lastUpdateTimestamp : Z;
  maxDepth : Z
}.

Definition setBook (b : list Level) (this : OrderBook) : OrderBook :=
  mkOrderBook (bookSymbol this) b (shouldCheckTimestamps this)
    (lastUpdateTimestamp this) (maxDepth this).

Definition setLastUpdateTimestamp (t : Z) (this : OrderBook) : OrderBook :=
  mkOrderBook (bookSymbol this) (book this) (shouldCheckTimestamps this)
    t (maxDepth this).

(** ** Methods: state passing with exceptions *)

Definition Method (A : Type) : Type := OrderBook -> Completion A * OrderBook.

Definition ret {A} (a : A) : Method A := fun this => (Return a, this).

Definition throw {A} (e : Error) : Method A := fun this => (Throw e, this).

Definition bind {A B} (m : Method A) (k : A -> Method B) : Method B :=
  fun this =>
    match m this with
    | (Return a, this') => k a this'
    | (Throw e, this') => (Throw e, this')
    end.

Definition getThis : Method OrderBook := fun this => (Return this, this).

Definition updateBook (f : list Level -> list Level) : Method unit :=
  fun this => (Return tt, setBook (f (book this)) this).

Notation "x <- m ;; k" := (bind m (fun x => k))
  (at level 61, m at next level, right associativity).
Notation "m ;; k" := (bind m (fun _ => k))
  (at level 61, right associativity).

(** [arr.forEach(f)] for a callback that acts on the object. *)
Fixpoint forEach {A} (f : A -> Method unit) (l : list A) : Method unit :=
  match l with
  | [] => ret tt
  | x :: rest => f x ;; forEach f rest
  end.

(** [new OrderBook(symbol, options)]; [now] is [new Date().getTime()]. *)
Definition new (symbol : string) (options : OrderBookOptions) (now : Z)
  : OrderBook :=
  {| bookSymbol := symbol;
     book := [];
     shouldCheckTimestamps :=
       match checkTimestamps options with
       | Some true => true
       | _ => false
       end;
     lastUpdateTimestamp := now;
     maxDepth := maxDepthOr (optMaxDepth options) 250 |}.

Definition replaceLevelAtIndex (i : Z) (level : Level) : Method unit :=
  updateBook (JsArray.splice i 1 [level]).

Definition insertLevel (level : Level) : Method unit :=
  updateBook (JsArray.push level).

Definition findIndexForSlice (level : Level) : Method Z :=
  this <- getThis ;;
  ret (JsArray.findIndex (fun e => Qeq_bool (price e) (price level))
         (book this)).

(** [checkTimestamp] returns [false] when checking is off and nothing
    ([undefined]) when the timestamp passes. *)
Definition checkTimestamp (timestamp : Z) : Method (option bool) :=
  this <- getThis ;;
  if negb (shouldCheckTimestamps this) then ret (Some false)
  else if lastUpdateTimestamp this >? timestamp then throw StaleUpdateError
  else ret None.

(** The comparator of [sort]: [b.price - a.price]. *)
Definition byPriceDescending (a b : Level) : Q := (price b - price a)%Q.

Definition sort : Method unit :=
  updateBook (JsArray.sort byPriceDescending).

Record SideCount : Type := mkCount { buys : Z; sells : Z }.

Definition countLevel (acc : SideCount) (level : Level) : SideCount :=
  match side level with
  | Sell => mkCount (buys acc) (sells acc + 1)
  | Buy => mkCount (buys acc + 1) (sells acc)
  end.

Definition trimSideCount (totalToTrim : Z) (shouldTrimTop : bool)
  : Method unit :=
  if totalToTrim <=? 0 then ret tt
  else if shouldTrimTop then updateBook (JsArray.splice 0 totalToTrim [])
  else
    updateBook (fun b =>
      JsArray.splice (JsArray.length b - totalToTrim - 1) totalToTrim [] b).

Definition trimToMaxDepth : Method unit :=
  this <- getThis ;;
  if JsArray.length (book this) <=? maxDepth this then ret tt
  else
    let count := fold_left countLevel (book this) (mkCount 0 0) in
    let maxPerSide := toFixed0 (inject_Z (maxDepth this) / 2) in
    let buysToTrim := buys count - maxPerSide in
    let sellsToTrim := sells count - maxPerSide in
    sort ;;
    trimSideCount buysToTrim false ;;
    trimSideCount sellsToTrim true.

Definition trackDidUpdate (timestamp : Z) : Method unit :=
  fun this => (Return tt, setLastUpdateTimestamp timestamp this).

Definition handleSnapshot (data : list Level) (timestamp : Z)
  : Method unit :=
  checkTimestamp timestamp ;;
  updateBook (fun _ => data) ;;
  trimToMaxDepth ;;
  sort ;;
  trackDidUpdate timestamp.

Definition deleteOne (level : Level) : Method unit :=
  existingIndex <- findIndexForSlice level ;;
  if negb (existingIndex =? -1)
  then updateBook (JsArray.splice existingIndex 1 [])
  else ret tt.

Definition upsertOne (level : Level) : Method unit :=
  existingIndex <- findIndexForSlice level ;;
  if negb (existingIndex =? -1)
  then replaceLevelAtIndex existingIndex level
  else insertLevel level.

Definition insertOne (level : Level) : Method unit :=
  existingIndex <- findIndexForSlice level ;;
  (if negb (existingIndex =? -1)
   then replaceLevelAtIndex existingIndex level
   else ret tt) ;;
  insertLevel level.

Definition handleDelta (deleteDelta upsertDelta insertDelta : list Level)
    (timestamp : Z) : Method unit :=
  checkTimestamp timestamp ;;
  forEach deleteOne deleteDelta ;;
  forEach upsertOne upsertDelta ;;
  forEach insertOne insertDelta ;;
  trimToMaxDepth ;;
  sort ;;
  trackDidUpdate timestamp.

Definition reset : Method unit := updateBook (fun _ => []).

(** [getBookState]: [structuredClone] hands out a copy, which as a value is
    the stored array. *)
Definition getBookState : Method (list Level) :=
  this <- getThis ;;
  ret (book this).

(** ** Analytics *)

(** Truthiness of a [number | null]: [null] and zero are falsy. *)
Definition falsy (x : option Q) : bool :=
  match x with
  | None => true
  | Some q => Qeq_bool q 0
  end.

Definition isSide (s : Side) (e : Level) : bool := Side_eqb (side e) s.

Definition getBestAsk (offset : Z) : Method (option Q) :=
  this <- getThis ;;
  let sellSide := filter (isSide Sell) (book this) in
  let index := JsArray.length sellSide - 1 - offset in
  let bottomSell := JsArray.get sellSide (Z.abs index) in
  ret (option_map price bottomSell).

Definition getBestBid (offset : Z) : Method (option Q) :=
  this <- getThis ;;
  let buySide := filter (isSide Buy) (book this) in
  let topBuy := JsArray.get buySide (Z.abs offset) in
  ret (option_map price topBuy).

(** The body shared by the two spreads: [(1 - bid / ask) * scale], in
    exact arithmetic. *)
Definition spreadOf (scale : Q) (bid ask : option Q) : option Q :=
  if falsy bid || falsy ask then None
  else
    match bid, ask with
    | Some b, Some a => Some ((1 - b / a) * scale)%Q
    | _, _ => None
    end.

Definition getSpreadPercent (n : Z) : Method (option Q) :=
  ask <- getBestAsk n ;;
  bid <- getBestBid n ;;
  ret (spreadOf 100 bid ask).

Definition getSpreadBasisPoints (n : Z) : Method (option Q) :=
  ask <- getBestAsk n ;;
  bid <- getBestBid n ;;
  ret (spreadOf 10000 bid ask).

Record Slippage : Type := mkSlippage {
  executionPrice : Q;
  slippagePercent : Q;
  slippageBasisPoints : Q
}.

Definition opposite (s : Side) : Side :=
  match s with
  | Buy => Sell
  | Sell => Buy
  end.

(** The comparator of the slippage walk: cheapest ask first for a buy,
    highest bid first for a sell. *)
Definition fillOrder (s : Side) (a b : Level) : Q :=
  match s with
  | Buy => (price a - price b)%Q
  | Sell => (price b - price a)%Q
  end.

(** The [for ... of] loop of [getEstimatedSlippage], with its [break]; the
    result is [(remainingSize, totalCost)] on leaving the loop.  The
    subtraction and the product are exact here; [Double.fillLevels] is the
    loop on doubles. *)
Fixpoint fillLevels (levels : list Level) (remainingSize totalCost : Q)
  : Q * Q :=
  match levels with
  | [] => (remainingSize, totalCost)
  | level :: rest =>
      let fillQty := Qmin remainingSize (qty level) in
      let totalCost' := (totalCost + fillQty * price level)%Q in
      let remainingSize' := (remainingSize - fillQty)%Q in
      if Qle_bool remainingSize' 0 then (remainingSize', totalCost')
      else fillLevels rest remainingSize' totalCost'
  end.

(** [getEstimatedSlippage] in exact arithmetic.  A division by zero,
    which on doubles gives an infinity or [NaN], can only arise in
    [best / executionPrice] for a sell that executes at price zero; the
    model has no value for it and no statement below rests on one. *)
Definition getEstimatedSlippage (baseOrderSize : Q) (s : Side)
  : Method (option Slippage) :=
  if Qle_bool baseOrderSize 0 then throw InvalidArgument
  else
    this <- getThis ;;
    let relevantLevels := filter (isSide (opposite s)) (book this) in
    if JsArray.length relevantLevels =? 0 then throw NoLiquidity
    else
      let sortedLevels := JsArray.sort (fillOrder s) relevantLevels in
      let '(remainingSize, totalCost) :=
        fillLevels sortedLevels baseOrderSize 0 in
      if Qlt_le_dec 0 remainingSize then throw InsufficientLiquidity
      else
        let executionPrice := (totalCost / baseOrderSize)%Q in
        bestPrice <- match s with
                     | Buy => getBestAsk 0
                     | Sell => getBestBid 0
                     end ;;
        match bestPrice with
        | None => ret None
        | Some best =>
            if Qeq_bool best 0 then ret None
            else
              let slippagePercent :=
                match s with
                | Buy => ((executionPrice / best - 1) * 100)%Q
                | Sell => ((best / executionPrice - 1) * 100)%Q
                end in
              ret (Some (mkSlippage executionPrice slippagePercent
                           (slippagePercent * 100)%Q))
        end.

(** ** Feeding a book *)

Inductive Call : Type :=
| Snapshot (data : list Level) (timestamp : Z)
| Delta (deleteDelta upsertDelta insertDelta : list Level) (timestamp : Z).

Definition perform (c : Call) : Method unit :=
  match c with
  | Snapshot data timestamp => handleSnapshot data timestamp
  | Delta d u i timestamp => handleDelta d u i timestamp
  end.

(** The timestamp a call carries. *)
Definition timestampOf (c : Call) : Z :=
  match c with
  | Snapshot _ timestamp => timestamp
  | Delta _ _ _ timestamp => timestamp
  end.

(** The states of the object after each call of a feed, oldest first.  A
    call that throws is caught by the feed; the object stays as the throw
    left it. *)
Fixpoint feed (calls : list Call) (this : OrderBook) : list OrderBook :=
  match calls with
  | [] => []
  | c :: rest => let this' := snd (perform c this) in this' :: feed rest this'
  end.

(** ** Properties of a book *)

(** The array the object holds once a method has run. *)
Definition bookAfter {A} (m : Method A) (this : OrderBook) : list Level :=
  book (snd (m this)).

(** A method that always returns and writes no field but [book]. *)
Definition mutatesBookOnly {A} (m : Method A) : Prop :=
  forall this, exists a b, m this = (Return a, setBook b this).

(** The three [forEach] loops of [handleDelta], in their order. *)
Definition applyDelta (deleteDelta upsertDelta insertDelta : list Level)
  : Method unit :=
  forEach deleteOne deleteDelta ;;
  forEach upsertOne upsertDelta ;;
  forEach insertOne insertDelta.

(** A timestamp that [checkTimestamp] lets through. *)
Definition accepted (timestamp : Z) (this : OrderBook) : Prop :=
  shouldCheckTimestamps this = false \/ lastUpdateTimestamp this <= timestamp.

Definition sortedDescending (b : list Level) : Prop :=
  StronglySorted (fun x y => (price y <= price x)%Q) b.

Definition countPrice (p : Q) (b : list Level) : nat :=
  List.length (filter (fun e => Qeq_bool (price e) p) b).

Definition totalQty (b : list Level) : Q :=
  fold_right (fun e acc => (qty e + acc)%Q) 0%Q b.

(** ** Sample levels *)

Definition lvl (p : Q) (s : Side) (q : Q) : Level :=
  mkLevel "BTCUSDT" p s q None.

(** A book of the default options, constructed at time 0. *)
Definition sampleBook : OrderBook := new "BTCUSDT" noOptions 0.

(** A book that checks timestamps, last updated at 1000. *)
Definition checkedBook : OrderBook :=
  mkOrderBook "BTCUSDT" [lvl 100 Buy 1] true 1000 250.

(** A book with two levels on each side, sorted as the feed leaves it. *)
Definition tradedBook : OrderBook :=
  setBook [lvl 103 Sell 2; lvl 102 Sell 3; lvl 100 Buy 4; lvl 99 Buy 5]
    sampleBook.

(** A book capped at [depth] levels. *)
Definition cappedBook (depth : Z) : OrderBook :=
  new "BTCUSDT" (mkOptions None (MaxDepthNumber depth) None) 0.

(** * Facts *)

(** ** Arrays *)

Section JsArrayFacts.

Context {A : Type}.

Lemma length_nonneg (l : list A) : 0 <= JsArray.length l.
Proof. unfold JsArray.length. lia. Qed.

Lemma length_app (l1 l2 : list A) :
  JsArray.length (l1 ++ l2) = JsArray.length l1 + JsArray.length l2.
Proof. unfold JsArray.length. rewrite List.length_app. lia. Qed.

(** What [splice] leaves: the array loses the clamped delete count and
    gains the items. *)
Lemma splice_length (start deleteCount : Z) (items l : list A) :
  let len := JsArray.length l in
  let actualStart :=
    if start <? 0 then Z.max (len + start) 0 else Z.min start len in
  JsArray.length (JsArray.splice start deleteCount items l)
  = len + JsArray.length items
    - Z.min (Z.max deleteCount 0) (len - actualStart).
Proof.
  unfold JsArray.splice, JsArray.length.
  rewrite !List.length_app, length_firstn, length_skipn.
  destruct (Z.ltb_spec start 0); lia.
Qed.

(** [splice] on an array cut at the splice point. *)
Lemma splice_app (pre mid post items : list A) :
  JsArray.splice (JsArray.length pre) (JsArray.length mid) items
    (pre ++ mid ++ post)
  = pre ++ items ++ post.
Proof.
  unfold JsArray.splice, JsArray.length.
  rewrite !List.length_app.
  destruct (Z.ltb_spec (Z.of_nat (List.length pre)) 0); [lia|].
  replace (Z.to_nat (Z.min _ _)) with (List.length pre + 0)%nat by lia.
  rewrite firstn_app_2. simpl. rewrite app_nil_r.
  f_equal. f_equal.
  replace (Z.to_nat _)
    with (List.length pre + (List.length mid + 0))%nat by lia.
  rewrite skipn_app, skipn_all2 by lia. simpl.
  replace (_ + _ - _)%nat with (List.length mid + 0)%nat by lia.
  rewrite skipn_app, skipn_all2 by lia. simpl.
  replace (_ + _ - _)%nat with 0%nat by lia.
  reflexivity.
Qed.

Lemma findIndexFrom_spec (p : A -> bool) (l : list A) :
  forall i,
    (filter p l = [] /\ JsArray.findIndexFrom p i l = -1)
    \/ exists pre x post,
         l = pre ++ x :: post /\ filter p pre = [] /\ p x = true
         /\ JsArray.findIndexFrom p i l = i + JsArray.length pre.
Proof.
  induction l as [|y rest IH]; intros i; simpl.
  - left. split; reflexivity.
  - destruct (p y) eqn:Hy.
    + right. exists [], y, rest. unfold JsArray.length. simpl.
      repeat split; auto. lia.
    + destruct (IH (i + 1))
        as [[Hn Hi] | (pre & x & post & -> & Hpre & Hx & Hi)].
      * left. split; assumption.
      * right. exists (y :: pre), x, post. simpl. rewrite Hy.
        repeat split; auto. rewrite Hi. unfold JsArray.length. simpl. lia.
Qed.

Lemma insertSorted_perm (cmp : A -> A -> Q) (x : A) (l : list A) :
  Permutation (JsArray.insertSorted cmp x l) (x :: l).
Proof.
  induction l as [|y rest IH]; simpl.
  - apply Permutation_refl.
  - destruct (Qlt_le_dec 0 (cmp x y)).
    + apply perm_trans with (y :: x :: rest).
      * apply perm_skip, IH.
      * apply perm_swap.
    + apply Permutation_refl.
Qed.

Lemma sort_perm (cmp : A -> A -> Q) (l : list A) :
  Permutation (JsArray.sort cmp l) l.
Proof.
  induction l as [|x rest IH]; simpl.
  - apply perm_nil.
  - apply perm_trans with (x :: JsArray.sort cmp rest).
    + apply insertSorted_perm.
    + apply perm_skip, IH.
Qed.

Lemma sort_length (cmp : A -> A -> Q) (l : list A) :
  JsArray.length (JsArray.sort cmp l) = JsArray.length l.
Proof.
  unfold JsArray.length. f_equal. apply Permutation_length, sort_perm.
Qed.

Lemma StronglySorted_weaken (R R' : A -> A -> Prop) (l : list A) :
  (forall x y, R x y -> R' x y) -> StronglySorted R l -> StronglySorted R' l.
Proof.
  intros HR. induction 1 as [|x rest Hs IH Hall]; constructor.
  - exact IH.
  - exact (Forall_impl _ (HR x) Hall).
Qed.

(** For a comparator that is a consistent order, the result of [sort] has
    every element before all those it does not compare greater than. *)
Section Sorted.

Variable cmp : A -> A -> Q.

Hypothesis cmp_trans :
  forall x y z, (cmp x y <= 0 -> cmp y z <= 0 -> cmp x z <= 0)%Q.
Hypothesis cmp_flip : forall x y, (0 < cmp x y -> cmp y x <= 0)%Q.

Let inOrder (x y : A) : Prop := (cmp x y <= 0)%Q.

Lemma insertSorted_sorted (x : A) (l : list A) :
  StronglySorted inOrder l ->
  StronglySorted inOrder (JsArray.insertSorted cmp x l).
Proof.
  induction 1 as [|y rest Hs IH Hall]; simpl.
  - constructor; constructor.
  - destruct (Qlt_le_dec 0 (cmp x y)) as [Hgt | Hle].
    + constructor; [exact IH|].
      apply (Permutation_Forall
               (Permutation_sym (insertSorted_perm cmp x rest))).
      constructor; [apply cmp_flip, Hgt | exact Hall].
    + constructor; [constructor; assumption|].
      constructor; [exact Hle|].
      apply (Forall_impl _ (fun z Hz => cmp_trans x y z Hle Hz) Hall).
Qed.

Lemma sort_sorted (l : list A) : StronglySorted inOrder (JsArray.sort cmp l).
Proof.
  induction l as [|x rest IH]; simpl.
  - constructor.
  - apply insertSorted_sorted, IH.
Qed.

End Sorted.

End JsArrayFacts.

(** ** The object and its methods *)

Lemma setBook_setBook (b b' : list Level) (this : OrderBook) :
  setBook b' (setBook b this) = setBook b' this.
Proof. reflexivity. Qed.

Lemma setBook_book (this : OrderBook) : setBook (book this) this = this.
Proof. destruct this; reflexivity. Qed.

(** *** Methods that only rewrite the array *)

Lemma mutatesBookOnly_ret {A} (a : A) : mutatesBookOnly (ret a).
Proof.
  intros this. exists a, (book this). unfold ret. now rewrite setBook_book.
Qed.

Lemma mutatesBookOnly_getThis : mutatesBookOnly getThis.
Proof.
  intros this. exists this, (book this). unfold getThis.
  now rewrite setBook_book.
Qed.

Lemma mutatesBookOnly_updateBook (f : list Level -> list Level) :
  mutatesBookOnly (updateBook f).
Proof. intros this. exists tt, (f (book this)). reflexivity. Qed.

Lemma mutatesBookOnly_bind {A B} (m : Method A) (k : A -> Method B) :
  mutatesBookOnly m -> (forall a, mutatesBookOnly (k a)) ->
  mutatesBookOnly (bind m k).
Proof.
  intros Hm Hk this. unfold bind.
  destruct (Hm this) as (a & b & ->).
  destruct (Hk a (setBook b this)) as (c & b' & ->).
  exists c, b'. reflexivity.
Qed.

Lemma mutatesBookOnly_forEach {A} (f : A -> Method unit) (l : list A) :
  (forall x, mutatesBookOnly (f x)) -> mutatesBookOnly (forEach f l).
Proof.
  intros Hf. induction l as [|x rest IH]; simpl.
  - apply mutatesBookOnly_ret.
  - apply mutatesBookOnly_bind; auto.
Qed.

Create HintDb bookOnly.

#[local] Hint Resolve mutatesBookOnly_ret mutatesBookOnly_getThis
  mutatesBookOnly_updateBook mutatesBookOnly_forEach : bookOnly.
#[local] Hint Extern 2 (mutatesBookOnly (bind _ _)) =>
  apply mutatesBookOnly_bind; [|intro] : bookOnly.
#[local] Hint Extern 3 (mutatesBookOnly (if ?c then _ else _)) =>
  destruct c : bookOnly.
#[local] Hint Extern 3 (mutatesBookOnly (match ?c with _ => _ end)) =>
  destruct c : bookOnly.

Lemma mutatesBookOnly_sort : mutatesBookOnly sort.
Proof. unfold sort. auto with bookOnly. Qed.

Lemma mutatesBookOnly_trimSideCount (n : Z) (top : bool) :
  mutatesBookOnly (trimSideCount n top).
Proof. unfold trimSideCount. auto with bookOnly. Qed.

#[local] Hint Resolve mutatesBookOnly_sort mutatesBookOnly_trimSideCount
  : bookOnly.

Lemma mutatesBookOnly_trimToMaxDepth :
  mutatesBookOnly trimToMaxDepth.
Proof. unfold trimToMaxDepth. auto 7 with bookOnly. Qed.

Lemma mutatesBookOnly_findIndexForSlice (level : Level) :
  mutatesBookOnly (findIndexForSlice level).
Proof. unfold findIndexForSlice. auto with bookOnly. Qed.

#[local] Hint Resolve mutatesBookOnly_trimToMaxDepth
  mutatesBookOnly_findIndexForSlice : bookOnly.

Lemma mutatesBookOnly_deleteOne (level : Level) :
  mutatesBookOnly (deleteOne level).
Proof. unfold deleteOne. auto with bookOnly. Qed.

Lemma mutatesBookOnly_upsertOne (level : Level) :
  mutatesBookOnly (upsertOne level).
Proof.
  unfold upsertOne, replaceLevelAtIndex, insertLevel. auto with bookOnly.
Qed.

Lemma mutatesBookOnly_insertOne (level : Level) :
  mutatesBookOnly (insertOne level).
Proof.
  unfold insertOne, replaceLevelAtIndex, insertLevel. auto 7 with bookOnly.
Qed.

#[local] Hint Resolve mutatesBookOnly_deleteOne mutatesBookOnly_upsertOne
  mutatesBookOnly_insertOne : bookOnly.

Lemma mutatesBookOnly_applyDelta (d u i : list Level) :
  mutatesBookOnly (applyDelta d u i).
Proof. unfold applyDelta. auto 7 with bookOnly. Qed.

Lemma mutatesBookOnly_run {A} (m : Method A) (this : OrderBook) :
  mutatesBookOnly m ->
  exists a, m this = (Return a, setBook (bookAfter m this) this).
Proof.
  intros Hm. unfold bookAfter. destruct (Hm this) as (a & b & ->).
  exists a. reflexivity.
Qed.


(** *** The timestamp gate *)

Lemma checkTimestamp_stale (timestamp : Z) (this : OrderBook) :
  shouldCheckTimestamps this = true ->
  timestamp < lastUpdateTimestamp this ->
  checkTimestamp timestamp this = (Throw StaleUpdateError, this).
Proof.
  intros Hon Hlt. unfold checkTimestamp, bind, getThis, throw.
  rewrite Hon. simpl.
  destruct (Z.gtb_spec (lastUpdateTimestamp this) timestamp); [reflexivity|lia].
Qed.

Lemma checkTimestamp_accepted (timestamp : Z) (this : OrderBook) :
  accepted timestamp this ->
  exists r, checkTimestamp timestamp this = (Return r, this).
Proof.
  intros Hacc. unfold checkTimestamp, bind, getThis, ret.
  destruct (shouldCheckTimestamps this) eqn:Hon; simpl.
  - destruct Hacc as [Hoff | Hle]; [congruence|].
    destruct (Z.gtb_spec (lastUpdateTimestamp this) timestamp); [lia|].
    exists None. reflexivity.
  - exists (Some false). reflexivity.
Qed.

Lemma stale_or_accepted (timestamp : Z) (this : OrderBook) :
  (shouldCheckTimestamps this = true
   /\ timestamp < lastUpdateTimestamp this)
  \/ accepted timestamp this.
Proof.
  unfold accepted. destruct (shouldCheckTimestamps this); [|auto].
  destruct (Z.lt_ge_cases timestamp (lastUpdateTimestamp this)); auto.
Qed.

(** *** What an accepted call leaves *)

(** The array after an accepted [handleSnapshot] or [handleDelta], given
    the array [b] that enters [trimToMaxDepth]. *)
Lemma trim_sort_track (b : list Level) (timestamp : Z) (this : OrderBook) :
  bind trimToMaxDepth (fun _ => bind sort (fun _ => trackDidUpdate timestamp))
    (setBook b this)
  = (Return tt,
     setLastUpdateTimestamp timestamp
       (setBook
          (JsArray.sort byPriceDescending
             (bookAfter trimToMaxDepth (setBook b this)))
          this)).
Proof.
  unfold bind at 1.
  destruct (mutatesBookOnly_run trimToMaxDepth (setBook b this)
              mutatesBookOnly_trimToMaxDepth) as ([] & ->).
  reflexivity.
Qed.

Lemma handleSnapshot_accepted (data : list Level) (timestamp : Z)
    (this : OrderBook) :
  accepted timestamp this ->
  handleSnapshot data timestamp this
  = (Return tt,
     setLastUpdateTimestamp timestamp
       (setBook
          (JsArray.sort byPriceDescending
             (bookAfter trimToMaxDepth (setBook data this)))
          this)).
Proof.
  intros Hacc. unfold handleSnapshot. unfold bind at 1.
  destruct (checkTimestamp_accepted timestamp this Hacc) as (r & ->).
  unfold bind at 1. unfold updateBook at 1.
  apply trim_sort_track.
Qed.

Lemma handleDelta_accepted (d u i : list Level) (timestamp : Z)
    (this : OrderBook) :
  accepted timestamp this ->
  handleDelta d u i timestamp this
  = (Return tt,
     setLastUpdateTimestamp timestamp
       (setBook
          (JsArray.sort byPriceDescending
             (bookAfter trimToMaxDepth
                (setBook (bookAfter (applyDelta d u i) this) this)))
          this)).
Proof.
  intros Hacc. unfold handleDelta. unfold bind at 1.
  destruct (checkTimestamp_accepted timestamp this Hacc) as (r & ->).
  destruct (mutatesBookOnly_run (applyDelta d u i) this
              (mutatesBookOnly_applyDelta d u i)) as ([] & Hrun).
  revert Hrun. generalize (bookAfter (applyDelta d u i) this) as b.
  intros b Hrun. unfold applyDelta in Hrun.
  rewrite <- (trim_sort_track b timestamp this).
  unfold bind in *.
  destruct (forEach deleteOne d this) as [[[]|e] s1]; [|discriminate].
  destruct (forEach upsertOne u s1) as [[[]|e] s2]; [|discriminate].
  destruct (forEach insertOne i s2) as [[[]|e] s3]; [|discriminate].
  injection Hrun as ->. reflexivity.
Qed.

Lemma handleSnapshot_stale (data : list Level) (timestamp : Z)
    (this : OrderBook) :
  shouldCheckTimestamps this = true ->
  timestamp < lastUpdateTimestamp this ->
  handleSnapshot data timestamp this = (Throw StaleUpdateError, this).
Proof.
  intros Hon Hlt. unfold handleSnapshot. unfold bind at 1.
  now rewrite checkTimestamp_stale.
Qed.

Lemma handleDelta_stale (d u i : list Level) (timestamp : Z)
    (this : OrderBook) :
  shouldCheckTimestamps this = true ->
  timestamp < lastUpdateTimestamp this ->
  handleDelta d u i timestamp this = (Throw StaleUpdateError, this).
Proof.
  intros Hon Hlt. unfold handleDelta. unfold bind at 1.
  now rewrite checkTimestamp_stale.
Qed.

(** *** The depth trimmer *)

Lemma bookAfter_trimSideCount (n : Z) (top : bool) (this : OrderBook) :
  bookAfter (trimSideCount n top) this
  = if n <=? 0 then book this
    else if top then JsArray.splice 0 n [] (book this)
    else JsArray.splice (JsArray.length (book this) - n - 1) n []
           (book this).
Proof.
  unfold bookAfter, trimSideCount.
  destruct (n <=? 0); [reflexivity|]. destruct top; reflexivity.
Qed.

(** [toFixed(0)] of half a depth rounds the half up. *)
Lemma toFixed0_half (d : Z) :
  0 <= d -> toFixed0 (inject_Z d / 2) = (d + 1) / 2.
Proof.
  intros Hd. unfold toFixed0.
  destruct (Qlt_le_dec (inject_Z d / 2) 0) as [Hneg | _].
  - exfalso. unfold Qlt, Qdiv, Qmult, Qinv, inject_Z in Hneg.
    simpl in Hneg. lia.
  - rewrite Qabs_pos.
    + unfold Qfloor, Qdiv, Qmult, Qinv, Qplus, inject_Z. simpl.
      replace (d * 1 * 2 + 2) with ((d + 1) * 2) by lia.
      replace 4 with (2 * 2) by reflexivity.
      rewrite Z.div_mul_cancel_r by lia. reflexivity.
    + unfold Qle, Qdiv, Qmult, Qinv, inject_Z. simpl. lia.
Qed.

Lemma countLevel_step (acc : SideCount) (x : Level) :
  buys (countLevel acc x) + sells (countLevel acc x)
  = buys acc + sells acc + 1
  /\ buys acc <= buys (countLevel acc x)
  /\ sells acc <= sells (countLevel acc x).
Proof. unfold countLevel. destruct (side x); simpl; lia. Qed.

Lemma countLevel_total (l : list Level) :
  forall acc,
    let count := fold_left countLevel l acc in
    buys count + sells count = buys acc + sells acc + JsArray.length l
    /\ buys acc <= buys count /\ sells acc <= sells count.
Proof.
  unfold JsArray.length.
  induction l as [|x rest IH]; intros acc; cbn [fold_left List.length].
  - cbv zeta. lia.
  - specialize (IH (countLevel acc x)). cbv zeta in *.
    pose proof (countLevel_step acc x). lia.
Qed.

(** The array [trimToMaxDepth] leaves, with the per-side counts and the
    cap per side named. *)
Lemma bookAfter_trimToMaxDepth (this : OrderBook) :
  bookAfter trimToMaxDepth this
  = if JsArray.length (book this) <=? maxDepth this then book this
    else
      let count := fold_left countLevel (book this) (mkCount 0 0) in
      let maxPerSide := toFixed0 (inject_Z (maxDepth this) / 2) in
      let sorted := JsArray.sort byPriceDescending (book this) in
      let afterBuys :=
        bookAfter (trimSideCount (buys count - maxPerSide) false)
          (setBook sorted this) in
      bookAfter (trimSideCount (sells count - maxPerSide) true)
        (setBook afterBuys this).
Proof.
  unfold bookAfter at 1. unfold trimToMaxDepth, bind, getThis.
  destruct (JsArray.length (book this) <=? maxDepth this); [reflexivity|].
  cbv zeta. unfold sort at 1, updateBook at 1.
  set (n1 := buys _ - _). set (n2 := sells _ - _).
  set (s1 := setBook _ this).
  destruct (mutatesBookOnly_run (trimSideCount n1 false) s1
              (mutatesBookOnly_trimSideCount n1 false)) as ([] & ->).
  unfold s1. rewrite setBook_setBook. reflexivity.
Qed.

(** Trimming leaves at most the cap per side on each side, twice that in
    all. *)
Lemma trimToMaxDepth_length (this : OrderBook) :
  1 <= maxDepth this ->
  JsArray.length (bookAfter trimToMaxDepth this)
  <= Z.max (maxDepth this) (2 * ((maxDepth this + 1) / 2)).
Proof.
  intros Hd. rewrite bookAfter_trimToMaxDepth.
  destruct (Z.leb_spec (JsArray.length (book this)) (maxDepth this))
    as [Hle|Hgt]; [lia|].
  cbv zeta. rewrite toFixed0_half by lia.
  destruct (countLevel_total (book this) (mkCount 0 0)) as (Hsum & Hb & Hs).
  cbv zeta in Hsum, Hb, Hs. simpl in Hsum, Hb, Hs.
  set (count := fold_left countLevel (book this) (mkCount 0 0)) in *.
  set (m := (maxDepth this + 1) / 2).
  assert (Hm : maxDepth this <= 2 * m <= maxDepth this + 1).
  { unfold m. pose proof (Z.div_mod (maxDepth this + 1) 2 ltac:(lia)).
    pose proof (Z.mod_pos_bound (maxDepth this + 1) 2 ltac:(lia)). lia. }
  rewrite !bookAfter_trimSideCount. simpl book.
  pose proof (sort_length byPriceDescending (book this)) as Hsl.
  set (sorted := JsArray.sort byPriceDescending (book this)) in *.
  destruct (Z.leb_spec (buys count - m) 0) as [Hb0|Hb0];
    destruct (Z.leb_spec (sells count - m) 0) as [Hs0|Hs0];
    rewrite ?splice_length; cbv zeta; rewrite ?splice_length; cbv zeta;
    unfold JsArray.length at 1 in Hsl; unfold JsArray.length in *;
    simpl List.length;
    repeat match goal with
           | |- context [if ?c <? ?d then _ else _] =>
               destruct (Z.ltb_spec c d)
           end; lia.
Qed.

Lemma trimToMaxDepth_length_even (this : OrderBook) :
  1 <= maxDepth this -> maxDepth this mod 2 = 0 ->
  JsArray.length (bookAfter trimToMaxDepth this) <= maxDepth this.
Proof.
  intros Hd Heven. pose proof (trimToMaxDepth_length this Hd) as H.
  pose proof (Z.div_mod (maxDepth this + 1) 2 ltac:(lia)).
  pose proof (Z.div_mod (maxDepth this) 2 ltac:(lia)).
  pose proof (Z.mod_pos_bound (maxDepth this + 1) 2 ltac:(lia)).
  lia.
Qed.

(** With [n] below the length, the bottom trim removes the [n] entries
    before the last one; the last entry stays. *)
Lemma trimSideCount_bottom (n : Z) (this : OrderBook) :
  0 < n < JsArray.length (book this) ->
  bookAfter (trimSideCount n false) this
  = firstn (Z.to_nat (JsArray.length (book this) - n - 1)) (book this)
      ++ skipn (Z.to_nat (JsArray.length (book this) - 1)) (book this).
Proof.
  intros Hn. rewrite bookAfter_trimSideCount.
  destruct (Z.leb_spec n 0); [lia|].
  unfold JsArray.splice. simpl.
  destruct (Z.ltb_spec (JsArray.length (book this) - n - 1) 0); [lia|].
  f_equal; f_equal; lia.
Qed.

(** *** Sorting *)

Lemma sort_byPriceDescending (b : list Level) :
  sortedDescending (JsArray.sort byPriceDescending b).
Proof.
  unfold sortedDescending.
  eapply StronglySorted_weaken; [| apply (sort_sorted byPriceDescending)].
  - unfold byPriceDescending. intros x y H. lra.
  - unfold byPriceDescending. intros x y z H1 H2. lra.
  - unfold byPriceDescending. intros x y H. lra.
Qed.

Lemma filter_perm {A} (p : A -> bool) (l l' : list A) :
  Permutation l l' -> Permutation (filter p l) (filter p l').
Proof.
  induction 1 as [| x l l' _ IH | x y l | l l' l'' _ IH1 _ IH2]; simpl.
  - apply perm_nil.
  - destruct (p x); [apply perm_skip|]; exact IH.
  - destruct (p x), (p y); try apply Permutation_refl. apply perm_swap.
  - eapply perm_trans; eassumption.
Qed.

Lemma countPrice_perm (p : Q) (b b' : list Level) :
  Permutation b b' -> countPrice p b = countPrice p b'.
Proof.
  intros H. unfold countPrice. apply Permutation_length, filter_perm, H.
Qed.

(** *** One insert on a price that is stored once *)

Lemma countPrice_one_split (p : Q) (b : list Level) :
  countPrice p b = 1%nat ->
  exists pre old post,
    b = pre ++ old :: post
    /\ countPrice p pre = 0%nat /\ countPrice p post = 0%nat
    /\ (price old == p)%Q
    /\ JsArray.findIndex (fun e => Qeq_bool (price e) p) b
       = JsArray.length pre.
Proof.
  intros Hone. unfold countPrice in *.
  destruct (findIndexFrom_spec (fun e => Qeq_bool (price e) p) b 0)
    as [[Hnone _] | (pre & old & post & Hb & Hpre & Hold & Hidx)].
  - rewrite Hnone in Hone. discriminate.
  - exists pre, old, post. subst b.
    rewrite filter_app, List.length_app, Hpre in Hone.
    simpl in Hone. rewrite Hold in Hone. simpl in Hone.
    rewrite Hpre. repeat split; try reflexivity.
    + lia.
    + apply Qeq_bool_iff, Hold.
    + unfold JsArray.findIndex. rewrite Hidx. lia.
Qed.

Lemma bookAfter_insertOne_existing (level : Level) (this : OrderBook)
    (pre post : list Level) (old : Level) :
  book this = pre ++ old :: post ->
  JsArray.findIndex (fun e => Qeq_bool (price e) (price level)) (book this)
  = JsArray.length pre ->
  bookAfter (insertOne level) this = pre ++ level :: post ++ [level].
Proof.
  intros Hb Hidx.
  unfold bookAfter, insertOne, findIndexForSlice, bind, getThis, ret.
  rewrite Hidx.
  destruct (Z.eqb_spec (JsArray.length pre) (-1)) as [E|_].
  - pose proof (length_nonneg pre). lia.
  - simpl. rewrite Hb. unfold JsArray.push.
    change 1 with (JsArray.length [old]).
    change (old :: post) with ([old] ++ post).
    rewrite splice_app. simpl. rewrite <- app_assoc. reflexivity.
Qed.

Lemma bookAfter_applyDelta_insert (level : Level) (this : OrderBook) :
  bookAfter (applyDelta [] [] [level]) this = bookAfter (insertOne level) this.
Proof.
  unfold bookAfter, applyDelta. simpl. unfold bind, ret.
  destruct (insertOne level this) as [[[]|e] s]; reflexivity.
Qed.

Lemma countPrice_app (p : Q) (b b' : list Level) :
  countPrice p (b ++ b') = (countPrice p b + countPrice p b')%nat.
Proof. unfold countPrice. now rewrite filter_app, List.length_app. Qed.

Lemma countPrice_cons (p : Q) (x : Level) (b : list Level) :
  countPrice p (x :: b)
  = ((if Qeq_bool (price x) p then 1 else 0) + countPrice p b)%nat.
Proof.
  unfold countPrice. simpl. destruct (Qeq_bool (price x) p); reflexivity.
Qed.

(** *** Best ask and best bid *)

Lemma get_nil {A} (i : Z) : JsArray.get (@nil A) i = None.
Proof.
  unfold JsArray.get. destruct (i <? 0); [reflexivity|].
  now destruct (Z.to_nat i).
Qed.

Lemma get_past_end {A} (l : list A) (i : Z) :
  JsArray.length l <= i -> JsArray.get l i = None.
Proof.
  unfold JsArray.get, JsArray.length. intros H.
  destruct (i <? 0); [reflexivity|]. apply nth_error_None. lia.
Qed.

Lemma getBestAsk_no_sells (offset : Z) (this : OrderBook) :
  filter (isSide Sell) (book this) = [] ->
  getBestAsk offset this = (Return None, this).
Proof.
  intros H. unfold getBestAsk, bind, getThis, ret.
  now rewrite H, get_nil.
Qed.

(** A negative offset indexes past the end of the sell side. *)
Lemma getBestAsk_negative_offset (offset : Z) (this : OrderBook) :
  offset < 0 -> getBestAsk offset this = (Return None, this).
Proof.
  intros H. unfold getBestAsk, bind, getThis, ret.
  rewrite get_past_end; [reflexivity|].
  pose proof (length_nonneg (filter (isSide Sell) (book this))). lia.
Qed.

(** An offset past the sell side is reflected back into it. *)
Lemma getBestAsk_reflected (offset : Z) (this : OrderBook) :
  let len := JsArray.length (filter (isSide Sell) (book this)) in
  len <= offset ->
  getBestAsk offset this = getBestAsk (2 * (len - 1) - offset) this.
Proof.
  intros len H. unfold getBestAsk, bind, getThis, ret. fold len.
  do 4 f_equal. lia.
Qed.

Lemma getBestAsk_pure (offset : Z) (this : OrderBook) :
  snd (getBestAsk offset this) = this.
Proof. reflexivity. Qed.

Lemma getBestBid_pure (offset : Z) (this : OrderBook) :
  snd (getBestBid offset this) = this.
Proof. reflexivity. Qed.

(** *** Spreads *)

Lemma falsy_spec (x : option Q) :
  falsy x = true <-> x = None \/ exists q, x = Some q /\ (q == 0)%Q.
Proof.
  destruct x as [q|]; simpl.
  - rewrite Qeq_bool_iff. split.
    + intros H. right. exists q. auto.
    + intros [H | (q' & [= <-] & H)]; [discriminate | exact H].
  - split; auto.
Qed.

Lemma spreadOf_value (scale b a : Q) :
  ~ (b == 0)%Q -> ~ (a == 0)%Q ->
  spreadOf scale (Some b) (Some a) = Some ((1 - b / a) * scale)%Q.
Proof.
  intros Hb Ha. unfold spreadOf, falsy.
  destruct (Qeq_bool b 0) eqn:Eb; [apply Qeq_bool_iff in Eb; contradiction|].
  destruct (Qeq_bool a 0) eqn:Ea; [apply Qeq_bool_iff in Ea; contradiction|].
  reflexivity.
Qed.

Lemma spreadOf_none (scale : Q) (bid ask : option Q) :
  spreadOf scale bid ask = None <-> falsy bid = true \/ falsy ask = true.
Proof.
  unfold spreadOf. rewrite <- orb_true_iff.
  destruct (falsy bid || falsy ask) eqn:E.
  - split; auto.
  - destruct bid, ask; simpl in E; rewrite ?orb_true_r in E;
      try discriminate E.
    split; intros; discriminate.
Qed.

Lemma getSpreadPercent_eq (n : Z) (this : OrderBook) :
  exists bid ask,
    getBestBid n this = (Return bid, this)
    /\ getBestAsk n this = (Return ask, this)
    /\ getSpreadPercent n this = (Return (spreadOf 100 bid ask), this)
    /\ getSpreadBasisPoints n this = (Return (spreadOf 10000 bid ask), this).
Proof. do 2 eexists. repeat split. Qed.

(** *** The slippage walk *)

Lemma totalQty_perm (b b' : list Level) :
  Permutation b b' -> (totalQty b == totalQty b')%Q.
Proof.
  induction 1 as [| x l l' _ IH | x y l | l l' l'' _ IH1 _ IH2]; simpl.
  - reflexivity.
  - rewrite IH. reflexivity.
  - ring.
  - rewrite IH1. exact IH2.
Qed.

Lemma totalQty_nonneg (b : list Level) :
  Forall (fun e => (0 <= qty e)%Q) b -> (0 <= totalQty b)%Q.
Proof.
  induction 1 as [|x rest Hx _ IH]; simpl; lra.
Qed.

(** Against non-negative quantities the walk ends with something left to
    fill exactly when the levels hold less than the order. *)
Lemma fillLevels_remaining (levels : list Level) :
  forall remainingSize totalCost,
    (0 < remainingSize)%Q ->
    Forall (fun e => (0 <= qty e)%Q) levels ->
    (0 < fst (fillLevels levels remainingSize totalCost))%Q
    <-> (totalQty levels < remainingSize)%Q.
Proof.
  induction levels as [|level rest IH]; intros r c Hr Hq; simpl.
  - tauto.
  - inversion Hq as [|? ? Hq0 Hrest]; subst.
    pose proof (totalQty_nonneg rest Hrest) as Hnn.
    destruct (Qle_bool (r - Qmin r (qty level)) 0) eqn:E.
    + apply Qle_bool_iff in E. simpl.
      destruct (Q.min_spec r (qty level)) as [[Hlt Hmin] | [Hle Hmin]];
        rewrite Hmin in *; split; intros H; lra.
    + assert (Hn : ~ (r - Qmin r (qty level) <= 0)%Q).
      { intros Hc. apply Qle_bool_iff in Hc. congruence. }
      rewrite IH; [| lra | exact Hrest].
      destruct (Q.min_spec r (qty level)) as [[Hlt Hmin] | [Hle Hmin]];
        rewrite Hmin in *; split; intros H; lra.
Qed.

Lemma length_zero_nil {A} (l : list A) :
  (JsArray.length l =? 0) = true <-> l = [].
Proof.
  unfold JsArray.length. destruct l; simpl; split; intros H;
    try reflexivity; discriminate.
Qed.

(** The four ways [getEstimatedSlippage] can end; none writes a field. *)
Lemma getEstimatedSlippage_outcome (size : Q) (s : Side) (this : OrderBook) :
  let relevant := filter (isSide (opposite s)) (book this) in
  let walk := fillLevels (JsArray.sort (fillOrder s) relevant) size 0 in
  exists outcome,
    getEstimatedSlippage size s this = (outcome, this)
    /\ ((outcome = Throw InvalidArgument /\ (size <= 0)%Q)
        \/ (outcome = Throw NoLiquidity /\ (0 < size)%Q /\ relevant = [])
        \/ (outcome = Throw InsufficientLiquidity
            /\ (0 < size)%Q /\ relevant <> [] /\ (0 < fst walk)%Q)
        \/ ((exists r, outcome = Return r)
            /\ (0 < size)%Q /\ relevant <> [] /\ ~ (0 < fst walk)%Q)).
Proof.
  cbv zeta. unfold getEstimatedSlippage.
  destruct (Qle_bool size 0) eqn:Esize.
  { apply Qle_bool_iff in Esize.
    eexists. split; [reflexivity|]. left. now split. }
  assert (Hpos : (0 < size)%Q).
  { apply Qnot_le_lt. intros Hc. apply Qle_bool_iff in Hc. congruence. }
  unfold bind at 1. unfold getThis at 1.
  destruct (JsArray.length (filter (isSide (opposite s)) (book this)) =? 0)
    eqn:Elen.
  { apply length_zero_nil in Elen.
    eexists. split; [reflexivity|].
    right; left. split; [reflexivity|]. split; assumption. }
  assert (Hne : filter (isSide (opposite s)) (book this) <> []).
  { intros Hc. apply length_zero_nil in Hc. congruence. }
  destruct (fillLevels _ size 0) as [remainingSize totalCost]. simpl fst.
  destruct (Qlt_le_dec 0 remainingSize) as [Hrem | Hrem].
  { eexists. split; [reflexivity|]. right; right; left.
    split; [reflexivity|]. split; [assumption|]. split; assumption. }
  assert (Hfilled : ~ (0 < remainingSize)%Q) by lra.
  unfold bind.
  destruct s; unfold getBestAsk, getBestBid, bind, getThis, ret;
    match goal with
    | |- context [option_map price ?x] =>
        destruct (option_map price x) as [best|]
    end;
    try destruct (Qeq_bool best 0);
    (eexists; split; [reflexivity|]); do 3 right;
    (split; [eexists; reflexivity|]);
    (split; [assumption|]); split; assumption.
Qed.

(** * The claims *)

(** C4.  With timestamp checking on, a snapshot or delta whose timestamp is
    below [lastUpdateTimestamp] throws [StaleUpdateError] before anything
    is written: the object, hence the levels and [lastUpdateTimestamp],
    is what it was.  A timestamp equal to [lastUpdateTimestamp] is let
    through and the call returns. *)
Theorem stale_update_rejected (this : OrderBook) (timestamp : Z) :
  shouldCheckTimestamps this = true ->
  (timestamp < lastUpdateTimestamp this ->
   forall data d u i,
     handleSnapshot data timestamp this = (Throw StaleUpdateError, this)
     /\ handleDelta d u i timestamp this = (Throw StaleUpdateError, this))
  /\ (timestamp = lastUpdateTimestamp this ->
      forall data d u i,
        fst (handleSnapshot data timestamp this) = Return tt
        /\ fst (handleDelta d u i timestamp this) = Return tt
        /\ lastUpdateTimestamp (snd (handleSnapshot data timestamp this))
           = timestamp
        /\ lastUpdateTimestamp (snd (handleDelta d u i timestamp this))
           = timestamp).
Proof.
  intros Hon. split.
  - intros Hlt data d u i. split.
    + now apply handleSnapshot_stale.
    + now apply handleDelta_stale.
  - intros Heq data d u i.
    assert (Hacc : accepted timestamp this) by (right; lia).
    rewrite (handleSnapshot_accepted data timestamp this Hacc).
    rewrite (handleDelta_accepted d u i timestamp this Hacc).
    repeat split.
Qed.

(** C5, with the walk in exact arithmetic.  [getEstimatedSlippage] throws
    [InvalidArgument] exactly for an order size that is not positive; for
    a positive size it throws [NoLiquidity] exactly when the opposite side
    has no level; for a positive size, a non-empty opposite side and
    non-negative quantities there, and the walk computed without
    rounding, it throws [InsufficientLiquidity] exactly when those
    quantities sum to less than the order size.  The object is never
    written. *)
Theorem getEstimatedSlippage_failures (size : Q) (s : Side)
    (this : OrderBook) :
  let relevant := filter (isSide (opposite s)) (book this) in
  let outcome := fst (getEstimatedSlippage size s this) in
  (outcome = Throw InvalidArgument <-> (size <= 0)%Q)
  /\ ((0 < size)%Q -> (outcome = Throw NoLiquidity <-> relevant = []))
  /\ ((0 < size)%Q -> relevant <> [] ->
      Forall (fun e => (0 <= qty e)%Q) relevant ->
      (outcome = Throw InsufficientLiquidity
       <-> (totalQty relevant < size)%Q))
  /\ snd (getEstimatedSlippage size s this) = this.
Proof.
  cbv zeta.
  destruct (getEstimatedSlippage_outcome size s this) as (o & Hrun & Hout).
  cbv zeta in Hout. rewrite Hrun. cbn [fst snd].
  set (relevant := filter (isSide (opposite s)) (book this)) in *.
  assert (Hwalk :
    (0 < size)%Q -> Forall (fun e => (0 <= qty e)%Q) relevant ->
    (0 < fst (fillLevels (JsArray.sort (fillOrder s) relevant) size 0))%Q
    <-> (totalQty relevant < size)%Q).
  { intros Hpos Hq.
    rewrite fillLevels_remaining; trivial.
    - now rewrite (totalQty_perm _ _ (sort_perm (fillOrder s) relevant)).
    - apply (Permutation_Forall (Permutation_sym (sort_perm _ relevant))), Hq. }
  split; [|split; [|split; [|reflexivity]]].
  - split; intros H.
    + destruct Hout as [[_ Hs] | [[E _] | [[E _] | [[r E] _]]]];
        trivial; congruence.
    + destruct Hout as [[E _] | [[_ [Hs _]] | [[_ [Hs _]] | [_ [Hs _]]]]];
        trivial; lra.
  - intros Hpos. split; intros H.
    + destruct Hout as [[E _] | [[_ [_ Hnil]] | [[E _] | [[r E] _]]]];
        trivial; congruence.
    + destruct Hout as [[_ Hs] | [[E _] | [[_ [_ [Hne _]]] | [_ [_ [Hne _]]]]]];
        trivial; try contradiction. lra.
  - intros Hpos Hne Hq. split; intros H.
    + apply Hwalk; trivial.
      destruct Hout as [[E _] | [[E _] | [[_ [_ [_ Hw]]] | [[r E] _]]]];
        trivial; congruence.
    + apply Hwalk in H; trivial.
      destruct Hout as [[_ Hs] | [[_ [_ Hnil]] | [[E _] | [_ [_ [_ Hw]]]]]];
        trivial; try contradiction. lra.
Qed.

(** C6.  Take a book that stores the price of [level] exactly once, at
    [old], with room for one more level under [maxDepth].  An accepted
    [handleDelta] that inserts [level] writes [level] over [old] where it
    stands and pushes [level] once more before sorting: the price is then
    stored twice, both times as [level], and the book is one level
    longer. *)
Theorem insert_existing_price_duplicates (level : Level) (timestamp : Z)
    (this : OrderBook) :
  accepted timestamp this ->
  countPrice (price level) (book this) = 1%nat ->
  JsArray.length (book this) + 1 <= maxDepth this ->
  exists pre old post,
    book this = pre ++ old :: post
    /\ (price old == price level)%Q
    /\ countPrice (price level) pre = 0%nat
    /\ countPrice (price level) post = 0%nat
    /\ fst (handleDelta [] [] [level] timestamp this) = Return tt
    /\ let after := book (snd (handleDelta [] [] [level] timestamp this)) in
       after
       = JsArray.sort byPriceDescending (pre ++ level :: post ++ [level])
       /\ countPrice (price level) after = 2%nat
       /\ filter (fun e => Qeq_bool (price e) (price level)) after
          = [level; level]
       /\ JsArray.length after = JsArray.length (book this) + 1.
Proof.
  intros Hacc Hone Hroom.
  destruct (countPrice_one_split _ _ Hone)
    as (pre & old & post & Hb & Hpre & Hpost & Hold & Hidx).
  exists pre, old, post.
  rewrite (handleDelta_accepted [] [] [level] timestamp this Hacc).
  cbn [fst snd book setLastUpdateTimestamp setBook].
  rewrite bookAfter_applyDelta_insert.
  rewrite (bookAfter_insertOne_existing level this pre post old Hb Hidx).
  rewrite bookAfter_trimToMaxDepth. cbn [book maxDepth setBook].
  set (grown := pre ++ level :: post ++ [level]).
  assert (Hlen : JsArray.length grown = JsArray.length (book this) + 1).
  { unfold grown, JsArray.length. rewrite Hb.
    rewrite !List.length_app. simpl. rewrite List.length_app. simpl. lia. }
  destruct (Z.leb_spec (JsArray.length grown) (maxDepth this)); [|lia].
  pose proof (sort_perm byPriceDescending grown) as Hperm.
  assert (Hfilter :
    filter (fun e => Qeq_bool (price e) (price level)) grown
    = [level; level]).
  { unfold grown, countPrice in *.
    rewrite filter_app. simpl. rewrite filter_app. simpl.
    rewrite Qeq_bool_refl.
    apply length_zero_iff_nil in Hpre, Hpost. now rewrite Hpre, Hpost. }
  repeat split; trivial.
  - rewrite (countPrice_perm _ _ _ Hperm). unfold countPrice.
    now rewrite Hfilter.
  - apply (filter_perm (fun e => Qeq_bool (price e) (price level))) in Hperm.
    rewrite Hfilter in Hperm.
    apply Permutation_sym, Permutation_length_2_inv in Hperm.
    destruct Hperm as [H' | H']; exact H'.
  - now rewrite sort_length.
Qed.

(** A call that returns leaves a sorted array, whatever it started from. *)
Lemma perform_sorted (c : Call) (this : OrderBook) :
  (perform c this = (Throw StaleUpdateError, this)
   /\ shouldCheckTimestamps this = true)
  \/ (fst (perform c this) = Return tt
      /\ sortedDescending (book (snd (perform c this)))).
Proof.
  destruct c as [data timestamp | d u i timestamp]; simpl;
    destruct (stale_or_accepted timestamp this) as [[Hon Hlt] | Hacc].
  - left. split; [now apply handleSnapshot_stale | exact Hon].
  - right. rewrite (handleSnapshot_accepted _ _ _ Hacc). simpl.
    split; [reflexivity | apply sort_byPriceDescending].
  - left. split; [now apply handleDelta_stale | exact Hon].
  - right. rewrite (handleDelta_accepted _ _ _ _ _ Hacc). simpl.
    split; [reflexivity | apply sort_byPriceDescending].
Qed.

Lemma feed_sorted_from (calls : list Call) :
  forall this,
    sortedDescending (book this) ->
    Forall (fun after => sortedDescending (book after)) (feed calls this).
Proof.
  induction calls as [|c rest IH]; intros this Hsorted; simpl.
  - constructor.
  - assert (Hnext : sortedDescending (book (snd (perform c this)))).
    { destruct (perform_sorted c this) as [[-> _] | [_ H]]; assumption. }
    constructor; [exact Hnext | apply IH, Hnext].
Qed.

(** C7.  Feed any calls, with any arguments, to a book just constructed:
    after each of them the stored levels are sorted by price, highest
    first, buys and sells in the one array.  And from any state at all, a
    call that returns leaves the levels sorted. *)
Theorem levels_sorted_after_each_call (symbol : string)
    (options : OrderBookOptions) (now : Z) (calls : list Call) :
  Forall (fun after => sortedDescending (book after))
    (feed calls (new symbol options now))
  /\ forall (c : Call) (this : OrderBook),
       fst (perform c this) = Return tt ->
       sortedDescending (book (snd (perform c this))).
Proof.
  split.
  - apply feed_sorted_from. simpl. constructor.
  - intros c this Hret.
    destruct (perform_sorted c this) as [[E _] | [_ H]]; [|exact H].
    rewrite E in Hret. discriminate.
Qed.

(** C8, as the code has it.  With [bid = getBestBid(n)] and
    [ask = getBestAsk(n)] both present and not zero, [getSpreadPercent(n)]
    is [(1 - bid / ask) * 100] and [getSpreadBasisPoints(n)] is
    [(1 - bid / ask) * 10000]; each returns [null] exactly when the bid or
    the ask is [null] or zero. *)
Theorem spread_formula_and_null (n : Z) (this : OrderBook) :
  exists bid ask,
    getBestBid n this = (Return bid, this)
    /\ getBestAsk n this = (Return ask, this)
    /\ (forall b a,
          bid = Some b -> ask = Some a -> ~ (b == 0)%Q -> ~ (a == 0)%Q ->
          fst (getSpreadPercent n this)
          = Return (Some ((1 - b / a) * 100)%Q)
          /\ fst (getSpreadBasisPoints n this)
             = Return (Some ((1 - b / a) * 10000)%Q))
    /\ (fst (getSpreadPercent n this) = Return None
        <-> falsy bid = true \/ falsy ask = true)
    /\ (fst (getSpreadBasisPoints n this) = Return None
        <-> falsy bid = true \/ falsy ask = true)
    /\ (falsy bid = true
        <-> bid = None \/ exists q, bid = Some q /\ (q == 0)%Q)
    /\ (falsy ask = true
        <-> ask = None \/ exists q, ask = Some q /\ (q == 0)%Q).
Proof.
  destruct (getSpreadPercent_eq n this) as (bid & ask & Hb & Ha & Hp & Hbp).
  exists bid, ask. rewrite Hp, Hbp. cbn [fst].
  split; [exact Hb|]. split; [exact Ha|]. split; [|split; [|split; [|split]]].
  - intros b a -> -> Hb0 Ha0. now rewrite !spreadOf_value.
  - rewrite <- spreadOf_none.
    split; [intros [= H]; exact H | intros ->; reflexivity].
  - rewrite <- spreadOf_none.
    split; [intros [= H]; exact H | intros ->; reflexivity].
  - apply falsy_spec.
  - apply falsy_spec.
Qed.

(** C10.  A [maxDepth] option that is omitted, [NaN] or zero gives the
    book the depth 250, any other number is taken as it is, and no option
    gives the depth 0; timestamps are checked only for
    [checkTimestamps: true]. *)
Theorem constructor_defaults (symbol : string) (options : OrderBookOptions)
    (now : Z) :
  maxDepth (new symbol options now)
  = match optMaxDepth options with
    | MaxDepthOmitted | MaxDepthNaN | MaxDepthNumber 0 => 250
    | MaxDepthNumber n => n
    end
  /\ maxDepth (new symbol options now) <> 0
  /\ (shouldCheckTimestamps (new symbol options now) = true
      <-> checkTimestamps options = Some true)
  /\ book (new symbol options now) = []
  /\ lastUpdateTimestamp (new symbol options now) = now.
Proof.
  destruct options as [chk md tr]. simpl.
  split; [|split; [|split; [|split; reflexivity]]].
  - destruct md as [| |[|p|p]]; reflexivity.
  - destruct md as [| |n]; simpl; try discriminate.
    destruct (Z.eqb_spec n 0); [discriminate | assumption].
  - destruct chk as [[|]|]; split; intros H; try reflexivity; discriminate.
Qed.

(** C9.  Two sell levels, 5 at 100 and 5 at 101, and a buy of 10: the
    best ask is 100, the order fills at 100.5 on average, which is a
    slippage of 0.5 percent, 50 basis points.  This holds for the book
    with the two levels in stored order and for the book a snapshot of
    them leaves. *)
Theorem slippage_across_two_levels (symbol : string)
    (check : bool) (last depth timestamp now : Z)
    (s1 s2 : string) (e1 e2 : option ExtraStateType) :
  let at100 := mkLevel s1 100 Sell 5 e1 in
  let at101 := mkLevel s2 101 Sell 5 e2 in
  let stored := mkOrderBook symbol [at101; at100] check last depth in
  let fed :=
    snd (handleSnapshot [at100; at101] timestamp (new symbol noOptions now)) in
  let holds (this : OrderBook) :=
    fst (getBestAsk 0 this) = Return (Some 100%Q)
    /\ exists r,
         getEstimatedSlippage 10 Buy this = (Return (Some r), this)
         /\ (executionPrice r == 100.5)%Q
         /\ (slippagePercent r == 0.5)%Q
         /\ (slippageBasisPoints r == 50)%Q in
  book fed = [at101; at100] /\ holds stored /\ holds fed.
Proof.
  cbv zeta. split; [reflexivity|]. split.
  - split; [reflexivity|]. eexists. split; [lazy; reflexivity|].
    repeat split; reflexivity.
  - split; [reflexivity|]. eexists. split; [lazy; reflexivity|].
    repeat split; reflexivity.
Qed.


(** * Further properties *)

(** ** Arrays, continued *)

Lemma In_firstn {A} (n : nat) (x : A) (l : list A) :
  In x (firstn n l) -> In x l.
Proof.
  intros H. rewrite <- (firstn_skipn n l). apply in_or_app. now left.
Qed.

Lemma In_skipn {A} (n : nat) (x : A) (l : list A) :
  In x (skipn n l) -> In x l.
Proof.
  intros H. rewrite <- (firstn_skipn n l). apply in_or_app. now right.
Qed.

(** [splice] brings in nothing but its items. *)
Lemma splice_In {A} (start deleteCount : Z) (items l : list A) (x : A) :
  In x (JsArray.splice start deleteCount items l) -> In x l \/ In x items.
Proof.
  unfold JsArray.splice. intros H.
  apply in_app_or in H. destruct H as [H | H].
  - left. eapply In_firstn, H.
  - apply in_app_or in H. destruct H as [H | H]; [now right|].
    left. eapply In_skipn, H.
Qed.

Lemma StronglySorted_app {A} (R : A -> A -> Prop) (l1 l2 : list A) :
  StronglySorted R (l1 ++ l2)
  <-> StronglySorted R l1 /\ StronglySorted R l2
      /\ Forall (fun x => Forall (R x) l2) l1.
Proof.
  induction l1 as [|a l1 IH]; simpl.
  - split.
    + intros H. repeat split; [constructor | exact H | constructor].
    + intros (_ & H & _). exact H.
  - split.
    + intros H. apply StronglySorted_inv in H. destruct H as [Hs Hall].
      apply IH in Hs. destruct Hs as (H1 & H2 & H12).
      apply Forall_app in Hall. destruct Hall as [Ha1 Ha2].
      repeat split; [constructor | | constructor]; assumption.
    + intros (H1 & H2 & H12).
      apply StronglySorted_inv in H1. destruct H1 as [H1 Ha1].
      inversion H12 as [|? ? Ha2 H12']; subst.
      constructor.
      * apply IH. repeat split; assumption.
      * apply Forall_app. split; assumption.
Qed.

Lemma StronglySorted_filter {A} (R : A -> A -> Prop) (p : A -> bool)
    (l : list A) :
  StronglySorted R l -> StronglySorted R (filter p l).
Proof.
  induction 1 as [|a l Hs IH Hall]; simpl; [constructor|].
  destruct (p a); [|exact IH].
  constructor; [exact IH|].
  apply Forall_forall. intros x Hx. apply filter_In in Hx.
  rewrite Forall_forall in Hall. apply Hall, Hx.
Qed.

(** ** Sorting, continued *)

(** Sorting does not reorder the levels of one price. *)
Lemma filter_insertSorted (p : Q) (x : Level) (b : list Level) :
  filter (fun e => Qeq_bool (price e) p)
    (JsArray.insertSorted byPriceDescending x b)
  = filter (fun e => Qeq_bool (price e) p) (x :: b).
Proof.
  induction b as [|y rest IH]; [reflexivity|].
  cbn [JsArray.insertSorted].
  destruct (Qlt_le_dec 0 (byPriceDescending x y)) as [Hgt | Hle];
    [|reflexivity].
  cbn [filter] in *. rewrite IH.
  destruct (Qeq_bool (price y) p) eqn:Ey; [|reflexivity].
  destruct (Qeq_bool (price x) p) eqn:Ex; [|reflexivity].
  apply Qeq_bool_iff in Ey, Ex. unfold byPriceDescending in Hgt. lra.
Qed.

Lemma filter_sort (p : Q) (b : list Level) :
  filter (fun e => Qeq_bool (price e) p)
    (JsArray.sort byPriceDescending b)
  = filter (fun e => Qeq_bool (price e) p) b.
Proof.
  induction b as [|x rest IH]; [reflexivity|].
  cbn [JsArray.sort fold_right].
  fold (JsArray.sort byPriceDescending rest).
  rewrite filter_insertSorted. cbn [filter]. now rewrite IH.
Qed.

(** A sorted array is left as it is. *)
Lemma sort_sorted_id (b : list Level) :
  sortedDescending b -> JsArray.sort byPriceDescending b = b.
Proof.
  induction 1 as [|x rest Hs IH Hall]; [reflexivity|].
  cbn [JsArray.sort fold_right].
  fold (JsArray.sort byPriceDescending rest). rewrite IH.
  destruct rest as [|y rest']; [reflexivity|].
  cbn [JsArray.insertSorted].
  destruct (Qlt_le_dec 0 (byPriceDescending x y)) as [Hgt | _];
    [|reflexivity].
  inversion Hall as [|? ? Hxy _]; subst.
  unfold byPriceDescending in Hgt. lra.
Qed.

Lemma sortedDescending_remove (pre post : list Level) (old : Level) :
  sortedDescending (pre ++ old :: post) -> sortedDescending (pre ++ post).
Proof.
  unfold sortedDescending. rewrite !StronglySorted_app.
  intros (H1 & H2 & H12). apply StronglySorted_inv in H2.
  repeat split; [exact H1 | apply H2 |].
  apply (Forall_impl _ (fun x (H : Forall _ (old :: post)) =>
                          Forall_inv_tail H) H12).
Qed.

Lemma sortedDescending_replace (pre post : list Level) (old level : Level) :
  (price old == price level)%Q ->
  sortedDescending (pre ++ old :: post) ->
  sortedDescending (pre ++ level :: post).
Proof.
  unfold sortedDescending. rewrite !StronglySorted_app.
  intros Heq (H1 & H2 & H12). apply StronglySorted_inv in H2.
  destruct H2 as [H2 Hpost].
  repeat split; [exact H1 | constructor; [exact H2|] |].
  - rewrite Forall_forall in *. intros y Hy. specialize (Hpost y Hy). lra.
  - rewrite Forall_forall in *. intros x Hx. specialize (H12 x Hx).
    inversion H12 as [|? ? Hold Htail]; subst.
    constructor; [lra | exact Htail].
Qed.

(** ** The batches of a delta, one level at a time *)

Lemma findIndexFrom_first {A} (p : A -> bool) (pre post : list A) (x : A) :
  forall i,
    filter p pre = [] -> p x = true ->
    JsArray.findIndexFrom p i (pre ++ x :: post) = i + JsArray.length pre.
Proof.
  unfold JsArray.length.
  induction pre as [|y pre IH]; intros i Hpre Hx; simpl.
  - rewrite Hx. lia.
  - simpl in Hpre. destruct (p y); [discriminate|].
    rewrite IH by assumption. lia.
Qed.

Lemma findIndex_absent {A} (p : A -> bool) (l : list A) :
  filter p l = [] -> JsArray.findIndex p l = -1.
Proof.
  intros Hnone. unfold JsArray.findIndex.
  destruct (findIndexFrom_spec p l 0)
    as [[_ H] | (pre & x & post & -> & _ & Hx & _)]; [exact H|].
  rewrite filter_app in Hnone. simpl in Hnone. rewrite Hx in Hnone.
  now apply app_eq_nil in Hnone.
Qed.

Lemma countPrice_zero (p : Q) (b : list Level) :
  countPrice p b = 0%nat <-> filter (fun e => Qeq_bool (price e) p) b = [].
Proof. unfold countPrice. apply length_zero_iff_nil. Qed.

(** Where the lookup of [level] lands in a book cut at the first level of
    its price. *)
Lemma findIndex_at_first (level old : Level) (pre post : list Level) :
  countPrice (price level) pre = 0%nat ->
  (price old == price level)%Q ->
  JsArray.findIndex (fun e => Qeq_bool (price e) (price level))
    (pre ++ old :: post)
  = JsArray.length pre.
Proof.
  intros Hpre Hold. unfold JsArray.findIndex.
  rewrite findIndexFrom_first.
  - lia.
  - now apply countPrice_zero.
  - now apply Qeq_bool_iff.
Qed.

Lemma bookAfter_deleteOne_absent (level : Level) (this : OrderBook) :
  countPrice (price level) (book this) = 0%nat ->
  bookAfter (deleteOne level) this = book this.
Proof.
  intros Hnone.
  unfold bookAfter, deleteOne, findIndexForSlice, bind, getThis, ret.
  rewrite findIndex_absent by now apply countPrice_zero. reflexivity.
Qed.

Lemma bookAfter_deleteOne_first (level old : Level) (pre post : list Level)
    (this : OrderBook) :
  book this = pre ++ old :: post ->
  countPrice (price level) pre = 0%nat ->
  (price old == price level)%Q ->
  bookAfter (deleteOne level) this = pre ++ post.
Proof.
  intros Hb Hpre Hold.
  unfold bookAfter, deleteOne, findIndexForSlice, bind, getThis, ret.
  rewrite Hb, findIndex_at_first by assumption.
  destruct (Z.eqb_spec (JsArray.length pre) (-1)) as [E|_].
  - pose proof (length_nonneg pre). lia.
  - simpl. rewrite Hb.
    change 1 with (JsArray.length [old]).
    change (old :: post) with ([old] ++ post).
    now rewrite splice_app.
Qed.

Lemma bookAfter_upsertOne_absent (level : Level) (this : OrderBook) :
  countPrice (price level) (book this) = 0%nat ->
  bookAfter (upsertOne level) this = book this ++ [level].
Proof.
  intros Hnone.
  unfold bookAfter, upsertOne, findIndexForSlice, bind, getThis, ret.
  rewrite findIndex_absent by now apply countPrice_zero. reflexivity.
Qed.

Lemma bookAfter_upsertOne_first (level old : Level) (pre post : list Level)
    (this : OrderBook) :
  book this = pre ++ old :: post ->
  countPrice (price level) pre = 0%nat ->
  (price old == price level)%Q ->
  bookAfter (upsertOne level) this = pre ++ level :: post.
Proof.
  intros Hb Hpre Hold.
  unfold bookAfter, upsertOne, findIndexForSlice, bind, getThis, ret.
  rewrite Hb, findIndex_at_first by assumption.
  destruct (Z.eqb_spec (JsArray.length pre) (-1)) as [E|_].
  - pose proof (length_nonneg pre). lia.
  - simpl. rewrite Hb.
    change 1 with (JsArray.length [old]).
    change (old :: post) with ([old] ++ post).
    now rewrite splice_app.
Qed.

Lemma bookAfter_insertOne_absent (level : Level) (this : OrderBook) :
  countPrice (price level) (book this) = 0%nat ->
  bookAfter (insertOne level) this = book this ++ [level].
Proof.
  intros Hnone.
  unfold bookAfter, insertOne, findIndexForSlice, bind, getThis, ret.
  rewrite findIndex_absent by now apply countPrice_zero. reflexivity.
Qed.

(** Every level of a book is either before the first level of a price or
    the book has none of that price. *)
Lemma countPrice_split (p : Q) (b : list Level) :
  countPrice p b = 0%nat
  \/ exists pre old post,
       b = pre ++ old :: post
       /\ countPrice p pre = 0%nat /\ (price old == p)%Q.
Proof.
  destruct (findIndexFrom_spec (fun e => Qeq_bool (price e) p) b 0)
    as [[Hnone _] | (pre & old & post & Hb & Hpre & Hold & _)].
  - left. now apply countPrice_zero.
  - right. exists pre, old, post. repeat split; trivial.
    + now apply countPrice_zero.
    + now apply Qeq_bool_iff.
Qed.

(** A method run leaves the object with its other fields. *)
Lemma run_bookOnly (m : Method unit) (this : OrderBook) :
  mutatesBookOnly m -> m this = (Return tt, setBook (bookAfter m this) this).
Proof.
  intros Hm. destruct (mutatesBookOnly_run m this Hm) as ([] & H). exact H.
Qed.

Lemma bookAfter_bind (m k : Method unit) (this : OrderBook) :
  mutatesBookOnly m ->
  bookAfter (bind m (fun _ => k)) this
  = bookAfter k (setBook (bookAfter m this) this).
Proof.
  intros Hm. unfold bookAfter at 1. unfold bind.
  now rewrite (run_bookOnly m this Hm).
Qed.

Lemma bookAfter_ret (this : OrderBook) : bookAfter (ret tt) this = book this.
Proof. reflexivity. Qed.

Lemma bookAfter_setBook_book {A} (m : Method A) (this : OrderBook) :
  bookAfter m (setBook (book this) this) = bookAfter m this.
Proof. now rewrite setBook_book. Qed.

(** The array after the three loops, loop by loop. *)
Lemma bookAfter_applyDelta (d u i : list Level) (this : OrderBook) :
  bookAfter (applyDelta d u i) this
  = let afterDeletes := bookAfter (forEach deleteOne d) this in
    let afterUpserts :=
      bookAfter (forEach upsertOne u) (setBook afterDeletes this) in
    bookAfter (forEach insertOne i) (setBook afterUpserts this).
Proof.
  unfold applyDelta. cbv zeta.
  rewrite bookAfter_bind by auto with bookOnly.
  rewrite bookAfter_bind by auto with bookOnly.
  now rewrite setBook_setBook.
Qed.

Lemma bookAfter_forEach_cons {A} (f : A -> Method unit) (x : A)
    (l : list A) (this : OrderBook) :
  (forall y, mutatesBookOnly (f y)) ->
  bookAfter (forEach f (x :: l)) this
  = bookAfter (forEach f l) (setBook (bookAfter (f x) this) this).
Proof. intros Hf. simpl. now rewrite bookAfter_bind. Qed.

Lemma bookAfter_forEach_nil {A} (f : A -> Method unit) (this : OrderBook) :
  bookAfter (forEach f []) this = book this.
Proof. reflexivity. Qed.

Lemma bookAfter_trim_within (this : OrderBook) :
  JsArray.length (book this) <= maxDepth this ->
  bookAfter trimToMaxDepth this = book this.
Proof.
  intros H. rewrite bookAfter_trimToMaxDepth.
  destruct (Z.leb_spec (JsArray.length (book this)) (maxDepth this));
    [reflexivity | lia].
Qed.

(** A delta depends on its batches through the array they leave. *)
Lemma handleDelta_same_batches (d u i d' u' i' : list Level)
    (timestamp : Z) (this : OrderBook) :
  bookAfter (applyDelta d u i) this = bookAfter (applyDelta d' u' i') this ->
  handleDelta d u i timestamp this = handleDelta d' u' i' timestamp this.
Proof.
  intros Hsame.
  destruct (stale_or_accepted timestamp this) as [[Hon Hlt] | Hacc].
  - now rewrite !handleDelta_stale.
  - rewrite !handleDelta_accepted by assumption. now rewrite Hsame.
Qed.

Lemma book_handleDelta_within (d u i : list Level) (timestamp : Z)
    (this : OrderBook) :
  accepted timestamp this ->
  JsArray.length (bookAfter (applyDelta d u i) this) <= maxDepth this ->
  book (snd (handleDelta d u i timestamp this))
  = JsArray.sort byPriceDescending (bookAfter (applyDelta d u i) this).
Proof.
  intros Hacc Hlen. rewrite handleDelta_accepted by assumption.
  cbn [snd book setLastUpdateTimestamp setBook].
  now rewrite bookAfter_trim_within.
Qed.

Lemma bookAfter_applyDelta_delete (level : Level) (this : OrderBook) :
  bookAfter (applyDelta [level] [] []) this = bookAfter (deleteOne level) this.
Proof.
  unfold bookAfter, applyDelta. simpl. unfold bind, ret.
  destruct (deleteOne level this) as [[[]|e] s]; reflexivity.
Qed.

Lemma bookAfter_applyDelta_upsert (level : Level) (this : OrderBook) :
  bookAfter (applyDelta [] [level] []) this = bookAfter (upsertOne level) this.
Proof.
  unfold bookAfter, applyDelta. simpl. unfold bind, ret.
  destruct (upsertOne level this) as [[[]|e] s]; reflexivity.
Qed.

Lemma length_remove (pre post : list Level) (old : Level) :
  JsArray.length (pre ++ post) = JsArray.length (pre ++ old :: post) - 1.
Proof.
  unfold JsArray.length. rewrite !List.length_app. simpl. lia.
Qed.

Lemma length_replace (pre post : list Level) (old level : Level) :
  JsArray.length (pre ++ level :: post) = JsArray.length (pre ++ old :: post).
Proof. unfold JsArray.length. rewrite !List.length_app. reflexivity. Qed.

Lemma length_push (b : list Level) (level : Level) :
  JsArray.length (b ++ [level]) = JsArray.length b + 1.
Proof. unfold JsArray.length. rewrite List.length_app. simpl. lia. Qed.

(** *** Where the levels of a book come from *)

Lemma In_trimSideCount (n : Z) (top : bool) (this : OrderBook) (x : Level) :
  In x (bookAfter (trimSideCount n top) this) -> In x (book this).
Proof.
  rewrite bookAfter_trimSideCount.
  destruct (n <=? 0); [trivial|].
  destruct top; intros H; apply splice_In in H; destruct H as [H | []];
    exact H.
Qed.

Lemma In_trimToMaxDepth (this : OrderBook) (x : Level) :
  In x (bookAfter trimToMaxDepth this) -> In x (book this).
Proof.
  rewrite bookAfter_trimToMaxDepth.
  destruct (JsArray.length (book this) <=? maxDepth this); [trivial|].
  cbv zeta. intros H.
  apply In_trimSideCount in H. cbn [book setBook] in H.
  apply In_trimSideCount in H. cbn [book setBook] in H.
  apply (Permutation_in _ (sort_perm byPriceDescending (book this))), H.
Qed.

Lemma In_deleteOne (level : Level) (this : OrderBook) (x : Level) :
  In x (bookAfter (deleteOne level) this) -> In x (book this).
Proof.
  unfold bookAfter, deleteOne, findIndexForSlice, bind, getThis, ret.
  destruct (negb _); [|trivial]. simpl.
  intros H. apply splice_In in H. destruct H as [H | []]. exact H.
Qed.

Lemma In_upsertOne (level : Level) (this : OrderBook) (x : Level) :
  In x (bookAfter (upsertOne level) this) -> In x (book this) \/ x = level.
Proof.
  unfold bookAfter, upsertOne, findIndexForSlice, bind, getThis, ret.
  destruct (negb _); simpl; intros H.
  - apply splice_In in H. destruct H as [H | [H | []]]; auto.
  - unfold JsArray.push in H. apply in_app_or in H.
    destruct H as [H | [H | []]]; auto.
Qed.

Lemma In_insertOne (level : Level) (this : OrderBook) (x : Level) :
  In x (bookAfter (insertOne level) this) -> In x (book this) \/ x = level.
Proof.
  unfold bookAfter, insertOne, findIndexForSlice, bind, getThis, ret.
  destruct (negb _); simpl; intros H; unfold JsArray.push in H;
    apply in_app_or in H; destruct H as [H | [H | []]]; auto.
  apply splice_In in H. destruct H as [H | [H | []]]; auto.
Qed.

Lemma In_forEach_deleteOne (d : list Level) (x : Level) :
  forall this,
    In x (bookAfter (forEach deleteOne d) this) -> In x (book this).
Proof.
  induction d as [|l d IH]; intros this H; [exact H|].
  rewrite bookAfter_forEach_cons in H by auto with bookOnly.
  apply IH in H. cbn [book setBook] in H. now apply In_deleteOne in H.
Qed.

Lemma In_forEach_upsertOne (u : list Level) (x : Level) :
  forall this,
    In x (bookAfter (forEach upsertOne u) this) ->
    In x (book this) \/ In x u.
Proof.
  induction u as [|l u IH]; intros this H; [now left|].
  rewrite bookAfter_forEach_cons in H by auto with bookOnly.
  apply IH in H. cbn [book setBook] in H. destruct H as [H | H].
  - apply In_upsertOne in H. destruct H as [H | ->]; [now left|].
    right. now left.
  - right. now right.
Qed.

Lemma In_forEach_insertOne (i : list Level) (x : Level) :
  forall this,
    In x (bookAfter (forEach insertOne i) this) ->
    In x (book this) \/ In x i.
Proof.
  induction i as [|l i IH]; intros this H; [now left|].
  rewrite bookAfter_forEach_cons in H by auto with bookOnly.
  apply IH in H. cbn [book setBook] in H. destruct H as [H | H].
  - apply In_insertOne in H. destruct H as [H | ->]; [now left|].
    right. now left.
  - right. now right.
Qed.

(** ** Properties of the feed operations *)

(** X1.  A returning snapshot or delta stores no level but those it was
    given: after [handleSnapshot] every stored level is one of [data],
    after [handleDelta] every stored level was stored before or is one of
    the upsert or insert batch. *)
Theorem stored_levels_come_from_the_call (timestamp : Z) (this : OrderBook) :
  accepted timestamp this ->
  (forall data x,
     In x (book (snd (handleSnapshot data timestamp this))) -> In x data)
  /\ (forall d u i x,
        In x (book (snd (handleDelta d u i timestamp this))) ->
        In x (book this) \/ In x u \/ In x i).
Proof.
  intros Hacc. split.
  - intros data x. rewrite handleSnapshot_accepted by assumption.
    cbn [snd book setLastUpdateTimestamp setBook]. intros H.
    apply (Permutation_in _ (sort_perm _ _)) in H.
    now apply In_trimToMaxDepth in H.
  - intros d u i x. rewrite handleDelta_accepted by assumption.
    cbn [snd book setLastUpdateTimestamp setBook]. intros H.
    apply (Permutation_in _ (sort_perm _ _)) in H.
    apply In_trimToMaxDepth in H. cbn [book setBook] in H.
    rewrite bookAfter_applyDelta in H. cbv zeta in H.
    apply In_forEach_insertOne in H. cbn [book setBook] in H.
    destruct H as [H | H]; [|auto].
    apply In_forEach_upsertOne in H. cbn [book setBook] in H.
    destruct H as [H | H]; [|auto].
    apply In_forEach_deleteOne in H. auto.
Qed.

(** X2.  On a sorted book within its depth, an accepted delta that
    deletes [level] takes out the first stored level of that price and
    nothing else; when the price is not stored the levels stay as they
    are.  The side of [level] plays no part. *)
Theorem delete_removes_first_level_of_price (level : Level) (timestamp : Z)
    (this : OrderBook) :
  accepted timestamp this ->
  sortedDescending (book this) ->
  JsArray.length (book this) <= maxDepth this ->
  let after := book (snd (handleDelta [level] [] [] timestamp this)) in
  (countPrice (price level) (book this) = 0%nat /\ after = book this)
  \/ exists pre old post,
       book this = pre ++ old :: post
       /\ countPrice (price level) pre = 0%nat
       /\ (price old == price level)%Q
       /\ after = pre ++ post.
Proof.
  intros Hacc Hsorted Hlen. cbv zeta.
  destruct (countPrice_split (price level) (book this))
    as [Hnone | (pre & old & post & Hb & Hpre & Hold)].
  - left. split; [exact Hnone|].
    rewrite book_handleDelta_within; trivial;
      rewrite bookAfter_applyDelta_delete, bookAfter_deleteOne_absent;
      trivial.
    now apply sort_sorted_id.
  - right. exists pre, old, post. repeat split; trivial.
    rewrite Hb in Hsorted, Hlen.
    rewrite book_handleDelta_within; trivial;
      rewrite bookAfter_applyDelta_delete,
        (bookAfter_deleteOne_first level old pre post this Hb Hpre Hold).
    + eapply sort_sorted_id, sortedDescending_remove, Hsorted.
    + rewrite (length_remove pre post old). lia.
Qed.

(** X3.  On a sorted book within its depth, an accepted delta that
    upserts [level] at a stored price writes [level] over the first stored
    level of that price, where it stands: every other level keeps its
    place and the book its length. *)
Theorem upsert_replaces_in_place (level old : Level) (pre post : list Level)
    (timestamp : Z) (this : OrderBook) :
  accepted timestamp this ->
  sortedDescending (book this) ->
  JsArray.length (book this) <= maxDepth this ->
  book this = pre ++ old :: post ->
  countPrice (price level) pre = 0%nat ->
  (price old == price level)%Q ->
  book (snd (handleDelta [] [level] [] timestamp this))
  = pre ++ level :: post.
Proof.
  intros Hacc Hsorted Hlen Hb Hpre Hold.
  rewrite Hb in Hsorted, Hlen.
  rewrite book_handleDelta_within; trivial;
    rewrite bookAfter_applyDelta_upsert,
      (bookAfter_upsertOne_first level old pre post this Hb Hpre Hold).
  - eapply sort_sorted_id, sortedDescending_replace; eassumption.
  - now rewrite (length_replace pre post old level).
Qed.

(** X4.  For a price that is not stored, upserting a level and inserting
    it are the same call; when accepted with room for one more level, the
    book is the old levels and the new one, sorted, and the price is
    stored once. *)
Theorem new_price_is_appended (level : Level) (timestamp : Z)
    (this : OrderBook) :
  countPrice (price level) (book this) = 0%nat ->
  handleDelta [] [level] [] timestamp this
  = handleDelta [] [] [level] timestamp this
  /\ (accepted timestamp this ->
      JsArray.length (book this) + 1 <= maxDepth this ->
      let after := book (snd (handleDelta [] [] [level] timestamp this)) in
      after = JsArray.sort byPriceDescending (book this ++ [level])
      /\ Permutation after (level :: book this)
      /\ countPrice (price level) after = 1%nat).
Proof.
  intros Hnone.
  assert (Hins : bookAfter (applyDelta [] [] [level]) this
                 = book this ++ [level]).
  { now rewrite bookAfter_applyDelta_insert, bookAfter_insertOne_absent. }
  split.
  - apply handleDelta_same_batches.
    now rewrite Hins, bookAfter_applyDelta_upsert, bookAfter_upsertOne_absent.
  - intros Hacc Hroom. cbv zeta.
    rewrite book_handleDelta_within; trivial; rewrite Hins;
      [|rewrite length_push; lia].
    split; [reflexivity|]. split.
    + eapply perm_trans; [apply sort_perm|].
      apply Permutation_sym, Permutation_cons_append.
    + rewrite (countPrice_perm _ _ _ (sort_perm _ _)).
      rewrite countPrice_app, countPrice_cons, Hnone, Qeq_bool_refl.
      reflexivity.
Qed.

(** X5.  Deleting a price that is stored at most once a second time in the
    same batch changes nothing, and deleting a price that is not stored is
    the delta with no batches. *)
Theorem delete_is_idempotent (level : Level) (timestamp : Z)
    (this : OrderBook) :
  (countPrice (price level) (book this) <= 1)%nat ->
  handleDelta [level; level] [] [] timestamp this
  = handleDelta [level] [] [] timestamp this
  /\ (countPrice (price level) (book this) = 0%nat ->
      handleDelta [level] [] [] timestamp this
      = handleDelta [] [] [] timestamp this).
Proof.
  intros Hcount. split.
  - apply handleDelta_same_batches.
    rewrite !bookAfter_applyDelta. cbv zeta.
    rewrite !bookAfter_forEach_nil. cbn [book setBook].
    rewrite (bookAfter_forEach_cons deleteOne level [level])
      by auto with bookOnly.
    rewrite !bookAfter_forEach_cons by auto with bookOnly.
    rewrite !bookAfter_forEach_nil. cbn [book setBook].
    apply bookAfter_deleteOne_absent. cbn [book setBook].
    destruct (countPrice_split (price level) (book this))
      as [Hnone | (pre & old & post & Hb & Hpre & Hold)].
    + now rewrite bookAfter_deleteOne_absent.
    + rewrite (bookAfter_deleteOne_first level old pre post this Hb Hpre Hold).
      rewrite Hb, countPrice_app, countPrice_cons in Hcount.
      apply Qeq_bool_iff in Hold. rewrite Hold in Hcount.
      rewrite countPrice_app. lia.
  - intros Hnone. apply handleDelta_same_batches.
    rewrite bookAfter_applyDelta_delete, bookAfter_deleteOne_absent by trivial.
    reflexivity.
Qed.

(** X6.  On a sorted book within its depth an accepted delta with no
    batches, and an accepted snapshot of the levels the book already
    stores, change nothing but [lastUpdateTimestamp]. *)
Theorem refeeding_own_levels_changes_nothing (timestamp : Z)
    (this : OrderBook) :
  accepted timestamp this ->
  sortedDescending (book this) ->
  JsArray.length (book this) <= maxDepth this ->
  handleDelta [] [] [] timestamp this
  = (Return tt, setLastUpdateTimestamp timestamp this)
  /\ (forall state,
        fst (getBookState this) = Return state ->
        handleSnapshot state timestamp this
        = (Return tt, setLastUpdateTimestamp timestamp this)).
Proof.
  intros Hacc Hsorted Hlen. split.
  - rewrite handleDelta_accepted by assumption.
    change (bookAfter (applyDelta [] [] []) this) with (book this).
    rewrite setBook_book, bookAfter_trim_within, sort_sorted_id by trivial.
    now rewrite setBook_book.
  - intros state [= <-].
    rewrite handleSnapshot_accepted by assumption.
    rewrite setBook_book, bookAfter_trim_within, sort_sorted_id by trivial.
    now rewrite setBook_book.
Qed.

(** How a call ends: thrown out at the timestamp gate with the object
    untouched, or returned with a trimmed and sorted array and the call's
    timestamp. *)
Lemma perform_cases (c : Call) (this : OrderBook) :
  (shouldCheckTimestamps this = true
   /\ timestampOf c < lastUpdateTimestamp this
   /\ perform c this = (Throw StaleUpdateError, this))
  \/ (accepted (timestampOf c) this
      /\ exists b,
           perform c this
           = (Return tt,
              setLastUpdateTimestamp (timestampOf c)
                (setBook
                   (JsArray.sort byPriceDescending
                      (bookAfter trimToMaxDepth (setBook b this)))
                   this))).
Proof.
  destruct c as [data timestamp | d u i timestamp]; simpl;
    destruct (stale_or_accepted timestamp this) as [[Hon Hlt] | Hacc].
  - left. repeat split; trivial. now apply handleSnapshot_stale.
  - right. split; [exact Hacc|]. exists data.
    now apply handleSnapshot_accepted.
  - left. repeat split; trivial. now apply handleDelta_stale.
  - right. split; [exact Hacc|].
    exists (bookAfter (applyDelta d u i) this).
    now apply handleDelta_accepted.
Qed.

Lemma countLevel_sides (l : list Level) :
  forall acc,
    buys (fold_left countLevel l acc)
    = buys acc + JsArray.length (filter (isSide Buy) l)
    /\ sells (fold_left countLevel l acc)
       = sells acc + JsArray.length (filter (isSide Sell) l).
Proof.
  unfold JsArray.length.
  induction l as [|x rest IH]; intros acc; cbn [fold_left filter].
  - simpl. lia.
  - destruct (IH (countLevel acc x)) as [Hb Hs]. rewrite Hb, Hs.
    unfold countLevel, isSide. destruct (side x); simpl; lia.
Qed.

(** X7.  With a depth of at least 1, a call never leaves more than
    [maxDepth + 1] levels, and never more than [maxDepth] when [maxDepth]
    is even, provided the book was within that bound before (as it is
    when constructed). *)
Theorem depth_after_a_call (c : Call) (this : OrderBook) :
  1 <= maxDepth this ->
  let bound :=
    if Z.even (maxDepth this) then maxDepth this else maxDepth this + 1 in
  JsArray.length (book this) <= bound ->
  JsArray.length (book (snd (perform c this))) <= bound.
Proof.
  intros Hd bound Hbefore.
  destruct (perform_cases c this) as [(_ & _ & ->) | (_ & b & ->)];
    [exact Hbefore|].
  cbn [snd book setLastUpdateTimestamp setBook]. rewrite sort_length.
  pose proof (trimToMaxDepth_length (setBook b this) Hd) as H.
  cbn [maxDepth setBook] in H. unfold bound.
  pose proof (Z.div_mod (maxDepth this + 1) 2 ltac:(lia)).
  pose proof (Z.mod_pos_bound (maxDepth this + 1) 2 ltac:(lia)).
  destruct (Z.even (maxDepth this)) eqn:E.
  - apply Z.even_spec in E. destruct E as [k E]. lia.
  - lia.
Qed.

(** X8.  When the book is over its depth, [trimToMaxDepth] takes from the
    array exactly the excess of each side over the cap per side, which is
    half the depth rounded up; a side at or under the cap costs
    nothing. *)
Theorem trim_removes_the_excess_of_each_side (this : OrderBook) :
  1 <= maxDepth this ->
  maxDepth this < JsArray.length (book this) ->
  let count := fold_left countLevel (book this) (mkCount 0 0) in
  let maxPerSide := (maxDepth this + 1) / 2 in
  buys count = JsArray.length (filter (isSide Buy) (book this))
  /\ sells count = JsArray.length (filter (isSide Sell) (book this))
  /\ JsArray.length (bookAfter trimToMaxDepth this)
     = JsArray.length (book this)
       - Z.max 0 (buys count - maxPerSide)
       - Z.max 0 (sells count - maxPerSide).
Proof.
  intros Hd Hover. cbv zeta.
  split; [|split].
  - now destruct (countLevel_sides (book this) (mkCount 0 0)).
  - now destruct (countLevel_sides (book this) (mkCount 0 0)).
  - rewrite bookAfter_trimToMaxDepth.
    destruct (Z.leb_spec (JsArray.length (book this)) (maxDepth this));
      [lia|].
    cbv zeta. rewrite toFixed0_half by lia.
    destruct (countLevel_total (book this) (mkCount 0 0)) as (Hsum & Hb & Hs).
    cbv zeta in Hsum, Hb, Hs. simpl in Hsum, Hb, Hs.
    set (count := fold_left countLevel (book this) (mkCount 0 0)) in *.
    set (m := (maxDepth this + 1) / 2).
    assert (Hm : maxDepth this <= 2 * m <= maxDepth this + 1).
    { unfold m. pose proof (Z.div_mod (maxDepth this + 1) 2 ltac:(lia)).
      pose proof (Z.mod_pos_bound (maxDepth this + 1) 2 ltac:(lia)). lia. }
    rewrite !bookAfter_trimSideCount. simpl book.
    pose proof (sort_length byPriceDescending (book this)) as Hsl.
    set (sorted := JsArray.sort byPriceDescending (book this)) in *.
    destruct (Z.leb_spec (buys count - m) 0) as [Hb0|Hb0];
      destruct (Z.leb_spec (sells count - m) 0) as [Hs0|Hs0];
      rewrite ?splice_length; cbv zeta; rewrite ?splice_length; cbv zeta;
      unfold JsArray.length at 1 in Hsl; unfold JsArray.length in *;
      simpl List.length;
      repeat match goal with
             | |- context [if ?c <? ?d then _ else _] =>
                 destruct (Z.ltb_spec c d)
             end; lia.
Qed.

(** X9.  What [trimSideCount] cuts: nothing for a count that is not
    positive; from the top, the first [n] entries; from the bottom, with
    [n] below the length, the [n] entries before the last one, which
    stays. *)
Theorem trimSideCount_cuts (n : Z) (this : OrderBook) :
  (n <= 0 -> forall top, bookAfter (trimSideCount n top) this = book this)
  /\ (0 < n ->
      bookAfter (trimSideCount n true) this
      = skipn (Z.to_nat n) (book this))
  /\ (0 < n < JsArray.length (book this) ->
      bookAfter (trimSideCount n false) this
      = firstn (Z.to_nat (JsArray.length (book this) - n - 1)) (book this)
          ++ skipn (Z.to_nat (JsArray.length (book this) - 1)) (book this)).
Proof.
  split; [|split].
  - intros Hn top. rewrite bookAfter_trimSideCount.
    destruct (Z.leb_spec n 0); [reflexivity | lia].
  - intros Hn. rewrite bookAfter_trimSideCount.
    destruct (Z.leb_spec n 0); [lia|].
    unfold JsArray.splice, JsArray.length. cbn [Z.ltb Z.compare app].
    replace (Z.to_nat (Z.min 0 (Z.of_nat (List.length (book this)))))
      with 0%nat by lia.
    cbn [firstn app].
    destruct (Z.le_gt_cases n (Z.of_nat (List.length (book this)))).
    + f_equal. lia.
    + rewrite !skipn_all2 by lia. reflexivity.
  - apply trimSideCount_bottom.
Qed.

(** X10.  An accepted snapshot replaces the levels wholesale: what the
    book stored before plays no part.  When [data] is within the depth
    the book is [data] sorted by price, highest first, with levels of
    equal price in the order [data] has them. *)
Theorem snapshot_replaces_the_levels (data : list Level) (timestamp : Z)
    (this : OrderBook) :
  accepted timestamp this ->
  (forall previous,
     book (snd (handleSnapshot data timestamp (setBook previous this)))
     = book (snd (handleSnapshot data timestamp this)))
  /\ (JsArray.length data <= maxDepth this ->
      let after := book (snd (handleSnapshot data timestamp this)) in
      after = JsArray.sort byPriceDescending data
      /\ Permutation after data
      /\ sortedDescending after
      /\ forall p,
           filter (fun e => Qeq_bool (price e) p) after
           = filter (fun e => Qeq_bool (price e) p) data).
Proof.
  intros Hacc. split.
  - intros previous.
    rewrite (handleSnapshot_accepted data timestamp this Hacc).
    rewrite (handleSnapshot_accepted data timestamp (setBook previous this))
      by exact Hacc.
    reflexivity.
  - intros Hlen. cbv zeta. rewrite handleSnapshot_accepted by assumption.
    cbn [snd book setLastUpdateTimestamp setBook].
    rewrite bookAfter_trim_within by exact Hlen. cbn [book setBook].
    repeat split.
    + apply sort_perm.
    + apply sort_byPriceDescending.
    + intros p. apply filter_sort.
Qed.

(** X11.  No call changes the symbol, the depth or whether timestamps are
    checked: every state of a feed has those of the object it started
    from. *)
Theorem feed_keeps_the_configuration (calls : list Call) (this : OrderBook) :
  Forall (fun after =>
            bookSymbol after = bookSymbol this
            /\ maxDepth after = maxDepth this
            /\ shouldCheckTimestamps after = shouldCheckTimestamps this)
    (feed calls this).
Proof.
  revert this. induction calls as [|c rest IH]; intros this; simpl;
    [constructor|].
  assert (Hstep :
    bookSymbol (snd (perform c this)) = bookSymbol this
    /\ maxDepth (snd (perform c this)) = maxDepth this
    /\ shouldCheckTimestamps (snd (perform c this))
       = shouldCheckTimestamps this).
  { destruct (perform_cases c this) as [(_ & _ & ->) | (_ & b & ->)];
      repeat split. }
  constructor; [exact Hstep|].
  destruct Hstep as (H1 & H2 & H3).
  eapply Forall_impl; [|apply IH].
  intros after (E1 & E2 & E3). repeat split; congruence.
Qed.

(** X12.  With timestamp checking on, [lastUpdateTimestamp] never goes
    back: along any feed it is non-decreasing from state to state. *)
Theorem checked_timestamps_never_go_back (calls : list Call)
    (this : OrderBook) :
  shouldCheckTimestamps this = true ->
  StronglySorted Z.le (map lastUpdateTimestamp (this :: feed calls this)).
Proof.
  intros Hon. apply Sorted_StronglySorted; [exact Z.le_trans|].
  revert this Hon. induction calls as [|c rest IH]; intros this Hon.
  - repeat constructor.
  - cbn [feed map]. cbv zeta.
    assert (Hstep :
      lastUpdateTimestamp this <= lastUpdateTimestamp (snd (perform c this))
      /\ shouldCheckTimestamps (snd (perform c this)) = true).
    { destruct (perform_cases c this) as [(_ & _ & ->) | (Hacc & b & ->)].
      - split; [apply Z.le_refl | exact Hon].
      - cbn [snd lastUpdateTimestamp setLastUpdateTimestamp
               shouldCheckTimestamps setBook].
        split; [|exact Hon].
        destruct Hacc as [Hoff | Hle]; [congruence | exact Hle]. }
    destruct Hstep as [Hle Hon'].
    constructor.
    + apply (IH _ Hon').
    + constructor. exact Hle.
Qed.

(** X13.  With timestamp checking off no call is thrown out: every call
    of a feed returns and leaves its own timestamp, in whatever order the
    timestamps come. *)
Theorem unchecked_feed_takes_every_timestamp (calls : list Call)
    (this : OrderBook) :
  shouldCheckTimestamps this = false ->
  map lastUpdateTimestamp (feed calls this) = map timestampOf calls
  /\ forall c, fst (perform c this) = Return tt.
Proof.
  intros Hoff. split.
  - revert this Hoff. induction calls as [|c rest IH]; intros this Hoff;
      [reflexivity|].
    cbn [feed map]. cbv zeta.
    destruct (perform_cases c this) as [(Hon & _) | (_ & b & E)];
      [congruence|].
    rewrite E. cbn [snd]. f_equal. now apply IH.
  - intros c.
    destruct (perform_cases c this) as [(Hon & _) | (_ & b & ->)];
      [congruence | reflexivity].
Qed.

(** ** Properties of the analytics *)

Lemma get_None {A} (l : list A) (i : Z) :
  0 <= i -> (JsArray.get l i = None <-> JsArray.length l <= i).
Proof.
  intros Hi. unfold JsArray.get, JsArray.length.
  destruct (Z.ltb_spec i 0); [lia|].
  rewrite nth_error_None. lia.
Qed.

Lemma option_map_None {A B} (f : A -> B) (x : option A) :
  option_map f x = None <-> x = None.
Proof. destruct x; simpl; split; intros H; congruence. Qed.

Lemma Return_inj {A} (a b : A) : Return a = Return b <-> a = b.
Proof. split; [intros [= H]; exact H | intros ->; reflexivity]. Qed.

(** X14.  [getBestBid] reads the buy side at the absolute value of the
    offset: an offset and its negative give the same answer, and the
    answer is [null] exactly when the buy side has no more levels than the
    absolute offset. *)
Theorem getBestBid_offsets (offset : Z) (this : OrderBook) :
  getBestBid (- offset) this = getBestBid offset this
  /\ (fst (getBestBid offset this) = Return None
      <-> JsArray.length (filter (isSide Buy) (book this)) <= Z.abs offset).
Proof.
  unfold getBestBid, bind, getThis, ret. cbn [fst]. split.
  - now rewrite Z.abs_opp.
  - rewrite Return_inj, option_map_None. apply get_None. lia.
Qed.

(** X15.  [getBestAsk] answers [null] exactly for a negative offset and
    for an offset of twice the number of sell levels less one, or more;
    with no sell level that is every offset. *)
Theorem getBestAsk_null_offsets (offset : Z) (this : OrderBook) :
  let len := JsArray.length (filter (isSide Sell) (book this)) in
  fst (getBestAsk offset this) = Return None
  <-> offset < 0 \/ 2 * len - 1 <= offset.
Proof.
  cbv zeta. unfold getBestAsk, bind, getThis, ret. cbn [fst].
  rewrite Return_inj, option_map_None, get_None by lia.
  pose proof (length_nonneg (filter (isSide Sell) (book this))). lia.
Qed.

(** The ends of a sorted array bound its prices. *)
Lemma sorted_bounds (b : list Level) :
  sortedDescending b -> b <> [] ->
  exists highest lowest,
    JsArray.get b 0 = Some highest
    /\ JsArray.get b (JsArray.length b - 1) = Some lowest
    /\ Forall (fun e => (price lowest <= price e <= price highest)%Q) b.
Proof.
  intros Hsorted Hne.
  destruct (exists_last Hne) as (init & lowest & Hlast).
  destruct b as [|highest rest]; [contradiction|].
  exists highest, lowest. split; [reflexivity|]. split.
  - rewrite Hlast. unfold JsArray.get, JsArray.length.
    rewrite List.length_app. simpl.
    destruct (Z.ltb_spec (Z.of_nat (List.length init + 1) - 1) 0); [lia|].
    replace (Z.to_nat _) with (List.length init + 0)%nat by lia.
    now rewrite nth_error_app2, Nat.add_0_r, Nat.sub_diag by lia.
  - apply Forall_forall. intros e He. split.
    + rewrite Hlast in Hsorted, He.
      apply StronglySorted_app in Hsorted. destruct Hsorted as (_ & _ & H).
      apply in_app_or in He. destruct He as [He | [<- | []]]; [|lra].
      rewrite Forall_forall in H. specialize (H e He).
      now inversion H.
    + apply StronglySorted_inv in Hsorted. destruct Hsorted as [_ H].
      destruct He as [<- | He]; [lra|].
      rewrite Forall_forall in H. now apply H.
Qed.

Lemma isSide_true (s : Side) (e : Level) : isSide s e = true <-> side e = s.
Proof.
  unfold isSide. destruct (side e), s; simpl; split; intros H;
    congruence.
Qed.

Lemma getBestBid_0 (this : OrderBook) :
  getBestBid 0 this
  = (Return (option_map price
               (JsArray.get (filter (isSide Buy) (book this)) 0)), this).
Proof. reflexivity. Qed.

Lemma getBestAsk_0 (this : OrderBook) :
  getBestAsk 0 this
  = (Return
       (option_map price
          (JsArray.get (filter (isSide Sell) (book this))
             (JsArray.length (filter (isSide Sell) (book this)) - 1))),
     this).
Proof.
  unfold getBestAsk, bind, getThis, ret.
  destruct (filter (isSide Sell) (book this)) as [|x rest] eqn:E.
  - reflexivity.
  - assert (H : Z.abs (JsArray.length (x :: rest) - 1 - 0)
                = JsArray.length (x :: rest) - 1).
    { unfold JsArray.length. simpl List.length. lia. }
    now rewrite H.
Qed.

(** X16.  On a sorted book, as every returning call leaves it,
    [getBestBid()] is the highest price among the buy levels and
    [getBestAsk()] the lowest among the sell levels; each is [null] only
    when its side is empty. *)
Theorem best_prices_on_a_sorted_book (this : OrderBook) :
  sortedDescending (book this) ->
  (forall e, In e (book this) -> side e = Buy ->
     exists bid,
       fst (getBestBid 0 this) = Return (Some bid) /\ (price e <= bid)%Q)
  /\ (forall e, In e (book this) -> side e = Sell ->
        exists ask,
          fst (getBestAsk 0 this) = Return (Some ask) /\ (ask <= price e)%Q)
  /\ (forall bid, fst (getBestBid 0 this) = Return (Some bid) ->
        exists e, In e (book this) /\ side e = Buy /\ price e = bid)
  /\ (forall ask, fst (getBestAsk 0 this) = Return (Some ask) ->
        exists e, In e (book this) /\ side e = Sell /\ price e = ask).
Proof.
  intros Hsorted.
  assert (Hside : forall s, sortedDescending (filter (isSide s) (book this))).
  { intros s. now apply StronglySorted_filter. }
  assert (Hget : forall (l : list Level) i x,
            JsArray.get l i = Some x -> In x l).
  { intros l i x. unfold JsArray.get. destruct (i <? 0); [discriminate|].
    apply nth_error_In. }
  rewrite getBestBid_0, getBestAsk_0. cbn [fst].
  split; [|split; [|split]].
  - intros e He Hbuy.
    assert (Hin : In e (filter (isSide Buy) (book this))).
    { apply filter_In. split; [exact He | now apply isSide_true]. }
    destruct (sorted_bounds _ (Hside Buy)) as (hi & lo & Hhi & _ & Hall).
    { intros Hnil. rewrite Hnil in Hin. exact Hin. }
    exists (price hi). rewrite Hhi. split; [reflexivity|].
    rewrite Forall_forall in Hall. now apply Hall.
  - intros e He Hsell.
    assert (Hin : In e (filter (isSide Sell) (book this))).
    { apply filter_In. split; [exact He | now apply isSide_true]. }
    destruct (sorted_bounds _ (Hside Sell)) as (hi & lo & _ & Hlo & Hall).
    { intros Hnil. rewrite Hnil in Hin. exact Hin. }
    exists (price lo). rewrite Hlo. split; [reflexivity|].
    rewrite Forall_forall in Hall. now apply Hall.
  - intros bid H. apply Return_inj in H.
    destruct (JsArray.get _ 0) as [x|] eqn:E; [|discriminate].
    injection H as <-. apply Hget, filter_In in E.
    exists x. repeat split; [apply E | now apply isSide_true].
  - intros ask H. apply Return_inj in H.
    destruct (JsArray.get _ _) as [x|] eqn:E; [|discriminate].
    injection H as <-. apply Hget, filter_In in E.
    exists x. repeat split; [apply E | now apply isSide_true].
Qed.

(** X17.  In exact arithmetic: when [getSpreadPercent(n)] answers a
    number, so does [getSpreadBasisPoints(n)], and it is a hundred times
    that; with a positive ask the spread is positive exactly when the bid
    is below the ask, so a crossed book shows a negative spread. *)
Theorem spread_sign_and_scale (n : Z) (this : OrderBook) (percent : Q) :
  fst (getSpreadPercent n this) = Return (Some percent) ->
  exists bid ask points,
    fst (getBestBid n this) = Return (Some bid)
    /\ fst (getBestAsk n this) = Return (Some ask)
    /\ fst (getSpreadBasisPoints n this) = Return (Some points)
    /\ (points == percent * 100)%Q
    /\ ((0 < ask)%Q -> ((0 < percent)%Q <-> (bid < ask)%Q)).
Proof.
  destruct (getSpreadPercent_eq n this) as (bid & ask & Hb & Ha & Hp & Hbp).
  rewrite Hp, Hb, Ha, Hbp. cbn [fst]. intros H. apply Return_inj in H.
  unfold spreadOf in *.
  destruct (falsy bid || falsy ask) eqn:Ef; [discriminate|].
  destruct bid as [b|], ask as [a|]; try discriminate.
  injection H as <-.
  exists b, a, ((1 - b / a) * 10000)%Q.
  repeat split; try ring.
  - intros Hsp. apply orb_false_iff in Ef. destruct Ef as [_ Ea].
    assert (Hb' : (b == (b / a) * a)%Q).
    { field. intros Hc. apply Qeq_bool_iff in Hc. simpl in Ea. congruence. }
    set (d := (b / a)%Q) in *. nra.
  - intros Hlt. apply orb_false_iff in Ef. destruct Ef as [_ Ea].
    assert (Hb' : (b == (b / a) * a)%Q).
    { field. intros Hc. apply Qeq_bool_iff in Hc. simpl in Ea. congruence. }
    set (d := (b / a)%Q) in *. nra.
Qed.

(** *** The slippage estimate *)

(** What a returned estimate is made of. *)
Lemma getEstimatedSlippage_success (size : Q) (s : Side) (this : OrderBook)
    (r : Slippage) :
  fst (getEstimatedSlippage size s this) = Return (Some r) ->
  let relevant := filter (isSide (opposite s)) (book this) in
  let walk := fillLevels (JsArray.sort (fillOrder s) relevant) size 0 in
  (0 < size)%Q
  /\ relevant <> []
  /\ (fst walk <= 0)%Q
  /\ exists best,
       fst (match s with
            | Buy => getBestAsk 0 this
            | Sell => getBestBid 0 this
            end) = Return (Some best)
       /\ ~ (best == 0)%Q
       /\ executionPrice r = (snd walk / size)%Q
       /\ slippagePercent r
          = match s with
            | Buy => ((snd walk / size / best - 1) * 100)%Q
            | Sell => ((best / (snd walk / size) - 1) * 100)%Q
            end
       /\ slippageBasisPoints r = (slippagePercent r * 100)%Q.
Proof.
  cbv zeta. unfold getEstimatedSlippage.
  destruct (Qle_bool size 0) eqn:Esize; [discriminate|].
  assert (Hpos : (0 < size)%Q).
  { apply Qnot_le_lt. intros Hc. apply Qle_bool_iff in Hc. congruence. }
  unfold bind at 1. unfold getThis at 1.
  destruct (JsArray.length (filter (isSide (opposite s)) (book this)) =? 0)
    eqn:Elen; [discriminate|].
  assert (Hne : filter (isSide (opposite s)) (book this) <> []).
  { intros Hc. apply length_zero_nil in Hc. congruence. }
  destruct (fillLevels _ size 0) as [remainingSize totalCost]. cbn [fst snd].
  destruct (Qlt_le_dec 0 remainingSize) as [Hrem | Hrem]; [discriminate|].
  unfold bind.
  destruct s.
  - destruct (getBestAsk 0 this) as [[[best|]|e] this'] eqn:Ebest;
      try discriminate.
    unfold ret. destruct (Qeq_bool best 0) eqn:E0; [discriminate|].
    intros [= <-]. repeat split; trivial.
    exists best. repeat split.
    intros Hc. apply Qeq_bool_iff in Hc. congruence.
  - destruct (getBestBid 0 this) as [[[best|]|e] this'] eqn:Ebest;
      try discriminate.
    unfold ret. destruct (Qeq_bool best 0) eqn:E0; [discriminate|].
    intros [= <-]. repeat split; trivial.
    exists best. repeat split.
    intros Hc. apply Qeq_bool_iff in Hc. congruence.
Qed.

(** The walk never overfills, and what it fills it prices within the
    prices of the levels. *)
Lemma fillLevels_bounds (lo hi : Q) (levels : list Level) :
  forall remainingSize totalCost,
    (0 <= remainingSize)%Q ->
    Forall (fun e => (0 <= qty e)%Q) levels ->
    Forall (fun e => (lo <= price e <= hi)%Q) levels ->
    let walk := fillLevels levels remainingSize totalCost in
    (0 <= fst walk <= remainingSize)%Q
    /\ (lo * (remainingSize - fst walk) <= snd walk - totalCost)%Q
    /\ (snd walk - totalCost <= hi * (remainingSize - fst walk))%Q.
Proof.
  induction levels as [|level rest IH]; intros r c Hr Hq Hp; cbv zeta.
  - simpl. repeat split; lra.
  - inversion Hq as [|? ? Hq0 Hqrest]; subst.
    inversion Hp as [|? ? Hp0 Hprest]; subst.
    cbn [fillLevels].
    set (fillQty := Qmin r (qty level)).
    assert (Hfill : (0 <= fillQty <= r)%Q).
    { unfold fillQty.
      destruct (Q.min_spec r (qty level)) as [[H ->] | [H ->]]; lra. }
    assert (Hcost : (lo * fillQty <= fillQty * price level
                     /\ fillQty * price level <= hi * fillQty)%Q).
    { split; nra. }
    destruct (Qle_bool (r - fillQty) 0) eqn:E.
    + cbn [fst snd]. repeat split; try lra.
    + specialize (IH (r - fillQty)%Q (c + fillQty * price level)%Q
                    ltac:(lra) Hqrest Hprest).
      cbv zeta in IH. destruct IH as (Hrem & Hlo & Hhi).
      repeat split; lra.
Qed.

Lemma executionPrice_bounds (size : Q) (s : Side) (this : OrderBook)
    (lo hi : Q) :
  let relevant := filter (isSide (opposite s)) (book this) in
  let walk := fillLevels (JsArray.sort (fillOrder s) relevant) size 0 in
  (0 < size)%Q ->
  (fst walk <= 0)%Q ->
  Forall (fun e => (0 <= qty e)%Q) relevant ->
  Forall (fun e => (lo <= price e <= hi)%Q) relevant ->
  (lo <= snd walk / size <= hi)%Q.
Proof.
  intros relevant walk Hpos Hfilled Hq Hp.
  pose proof (sort_perm (fillOrder s) relevant) as Hperm.
  assert (Hsize : (0 <= size)%Q) by lra.
  destruct (fillLevels_bounds lo hi (JsArray.sort (fillOrder s) relevant)
              size 0 Hsize) as (Hrem & Hlo & Hhi).
  { apply (Permutation_Forall (Permutation_sym Hperm)), Hq. }
  { apply (Permutation_Forall (Permutation_sym Hperm)), Hp. }
  cbv zeta in Hrem, Hlo, Hhi. fold walk in Hrem, Hlo, Hhi.
  assert (Hzero : (fst walk == 0)%Q) by lra.
  rewrite Hzero in Hlo, Hhi.
  split.
  - apply Qle_shift_div_l; [exact Hpos | lra].
  - apply Qle_shift_div_r; [exact Hpos | lra].
Qed.

(** X18.  A returned estimate has an execution price within the prices of
    the levels of the opposite side, whenever their quantities are not
    negative: between any lower and any upper bound of those prices. *)
Theorem execution_price_within_the_levels (size : Q) (s : Side)
    (this : OrderBook) (r : Slippage) (lo hi : Q) :
  let relevant := filter (isSide (opposite s)) (book this) in
  Forall (fun e => (0 <= qty e)%Q) relevant ->
  Forall (fun e => (lo <= price e <= hi)%Q) relevant ->
  fst (getEstimatedSlippage size s this) = Return (Some r) ->
  (lo <= executionPrice r <= hi)%Q.
Proof.
  intros relevant Hq Hp Hret.
  destruct (getEstimatedSlippage_success size s this r Hret)
    as (Hpos & _ & Hfilled & best & _ & _ & -> & _).
  now apply executionPrice_bounds.
Qed.

Lemma get_In {A} (l : list A) (i : Z) (x : A) :
  JsArray.get l i = Some x -> In x l.
Proof.
  unfold JsArray.get. destruct (i <? 0); [discriminate|].
  apply nth_error_In.
Qed.

(** The reference price of an estimate is the price of a level of the
    opposite side: the last sell for a buy, the first buy for a sell. *)
Lemma reference_price_is_stored (s : Side) (this : OrderBook) (best : Q) :
  let relevant := filter (isSide (opposite s)) (book this) in
  fst (match s with
       | Buy => getBestAsk 0 this
       | Sell => getBestBid 0 this
       end) = Return (Some best) ->
  exists e,
    best = price e
    /\ JsArray.get relevant
         (match s with
          | Buy => JsArray.length relevant - 1
          | Sell => 0
          end) = Some e.
Proof.
  cbv zeta. destruct s; cbn [opposite].
  - rewrite getBestAsk_0. cbn [fst]. intros H. apply Return_inj in H.
    destruct (JsArray.get _ _) as [e|]; [|discriminate].
    injection H as <-. now exists e.
  - rewrite getBestBid_0. cbn [fst]. intros H. apply Return_inj in H.
    destruct (JsArray.get _ _) as [e|]; [|discriminate].
    injection H as <-. now exists e.
Qed.

(** X19.  In exact arithmetic: on a sorted book whose levels of the
    opposite side have positive prices and quantities that are not
    negative, a returned estimate never shows a gain: a buy executes at or
    above the best ask, a sell at or below the best bid, at a positive
    price, and the slippage is not negative in percent or in basis points.
    On doubles rounding can put the estimate a little on the other side,
    see [double_estimate_rounds]. *)
Theorem slippage_is_never_negative (size : Q) (s : Side) (this : OrderBook)
    (r : Slippage) :
  let relevant := filter (isSide (opposite s)) (book this) in
  sortedDescending (book this) ->
  Forall (fun e => (0 <= qty e)%Q /\ (0 < price e)%Q) relevant ->
  fst (getEstimatedSlippage size s this) = Return (Some r) ->
  (0 < executionPrice r)%Q
  /\ (0 <= slippagePercent r)%Q
  /\ (0 <= slippageBasisPoints r)%Q
  /\ exists best,
       fst (match s with
            | Buy => getBestAsk 0 this
            | Sell => getBestBid 0 this
            end) = Return (Some best)
       /\ match s with
          | Buy => (best <= executionPrice r)%Q
          | Sell => (executionPrice r <= best)%Q
          end.
Proof.
  intros relevant Hsorted Hlevels Hret.
  destruct (getEstimatedSlippage_success size s this r Hret)
    as (Hpos & Hne & Hfilled & best & Hbest & Hbest0 & Hexec & Hsp & Hbp).
  fold relevant in Hne, Hfilled, Hexec, Hsp.
  assert (Hrs : sortedDescending relevant)
    by now apply StronglySorted_filter.
  destruct (sorted_bounds relevant Hrs Hne) as (hi & lo & Hhi & Hlo & Hall).
  assert (Hq : Forall (fun e => (0 <= qty e)%Q) relevant).
  { apply (Forall_impl _ (fun e H => proj1 H) Hlevels). }
  pose proof (executionPrice_bounds size s this (price lo) (price hi)
                Hpos Hfilled Hq Hall) as Hbounds.
  fold relevant in Hbounds.
  assert (Hlo0 : (0 < price lo)%Q).
  { rewrite Forall_forall in Hlevels. apply Hlevels, (get_In _ _ _ Hlo). }
  destruct (reference_price_is_stored s this best Hbest) as (e & He & Hget).
  fold relevant in Hget.
  rewrite Hbp, Hsp, Hexec.
  set (exec := (snd (fillLevels (JsArray.sort (fillOrder s) relevant) size 0)
                / size)%Q) in *.
  destruct s.
  - assert (e = lo) by congruence. subst e best.
    assert (Hratio : (1 <= exec / price lo)%Q).
    { apply Qle_shift_div_l; [exact Hlo0 | lra]. }
    repeat split; try lra.
    exists (price lo). split; [exact Hbest | lra].
  - assert (e = hi) by congruence. subst e best.
    assert (Hratio : (1 <= price hi / exec)%Q).
    { apply Qle_shift_div_l; lra. }
    repeat split; try lra.
    exists (price hi). split; [exact Hbest | lra].
Qed.

(** X20.  In exact arithmetic: when every level of the opposite side
    stands at one price, with quantities that are not negative, a returned
    estimate executes at that price with no slippage.  On doubles the
    quotient can round away from that price, see
    [double_estimate_rounds]. *)
Theorem one_price_fills_without_slippage (size p : Q) (s : Side)
    (this : OrderBook) (r : Slippage) :
  let relevant := filter (isSide (opposite s)) (book this) in
  Forall (fun e => (0 <= qty e)%Q /\ (price e == p)%Q) relevant ->
  fst (getEstimatedSlippage size s this) = Return (Some r) ->
  (executionPrice r == p)%Q
  /\ (slippagePercent r == 0)%Q
  /\ (slippageBasisPoints r == 0)%Q.
Proof.
  intros relevant Hlevels Hret.
  destruct (getEstimatedSlippage_success size s this r Hret)
    as (Hpos & Hne & Hfilled & best & Hbest & Hbest0 & Hexec & Hsp & Hbp).
  fold relevant in Hne, Hfilled, Hexec, Hsp.
  assert (Hq : Forall (fun e => (0 <= qty e)%Q) relevant).
  { apply (Forall_impl _ (fun e H => proj1 H) Hlevels). }
  assert (Hp : Forall (fun e => (p <= price e <= p)%Q) relevant).
  { eapply Forall_impl; [|exact Hlevels]. cbv beta. intros e [_ He]. lra. }
  pose proof (executionPrice_bounds size s this p p Hpos Hfilled Hq Hp)
    as Hbounds.
  fold relevant in Hbounds.
  destruct (reference_price_is_stored s this best Hbest) as (e & He & Hget).
  fold relevant in Hget.
  assert (Hbp' : (best == p)%Q).
  { rewrite Forall_forall in Hlevels. rewrite He.
    apply Hlevels, (get_In _ _ _ Hget). }
  assert (Hp0 : ~ (p == 0)%Q) by (intros Hc; apply Hbest0; lra).
  rewrite Hbp, Hsp, Hexec.
  set (exec := (snd (fillLevels (JsArray.sort (fillOrder s) relevant) size 0)
                / size)%Q) in *.
  assert (Hexec' : (exec == p)%Q) by lra.
  destruct s; rewrite Hexec', Hbp'; repeat split; try reflexivity;
    field; exact Hp0.
Qed.

(** X21.  [reset] empties the book and touches nothing else.  On the
    emptied book the best prices and the spreads are [null] at every
    offset and an estimate for a positive size throws [NoLiquidity]; a
    snapshot builds the same levels as on the book before the reset. *)
Theorem reset_clears_the_levels (this : OrderBook) :
  let cleared := snd (reset this) in
  reset this = (Return tt, setBook [] this)
  /\ (forall n,
        getBestAsk n cleared = (Return None, cleared)
        /\ getBestBid n cleared = (Return None, cleared)
        /\ getSpreadPercent n cleared = (Return None, cleared)
        /\ getSpreadBasisPoints n cleared = (Return None, cleared))
  /\ (forall size s,
        (0 < size)%Q ->
        getEstimatedSlippage size s cleared = (Throw NoLiquidity, cleared))
  /\ (forall data timestamp,
        book (snd (handleSnapshot data timestamp cleared))
        = book (snd (handleSnapshot data timestamp this))
           \/ handleSnapshot data timestamp this
              = (Throw StaleUpdateError, this)).
Proof.
  cbv zeta. split; [reflexivity|]. split; [|split].
  - intros n.
    assert (Ha : getBestAsk n (snd (reset this))
                 = (Return None, snd (reset this))).
    { unfold getBestAsk, bind, getThis, ret. simpl. now rewrite get_nil. }
    assert (Hb : getBestBid n (snd (reset this))
                 = (Return None, snd (reset this))).
    { unfold getBestBid, bind, getThis, ret. simpl. now rewrite get_nil. }
    repeat split; trivial.
    + unfold getSpreadPercent, bind. now rewrite Ha, Hb.
    + unfold getSpreadBasisPoints, bind. now rewrite Ha, Hb.
  - intros size s Hpos. unfold getEstimatedSlippage.
    destruct (Qle_bool size 0) eqn:E.
    + apply Qle_bool_iff in E. lra.
    + reflexivity.
  - intros data timestamp.
    destruct (stale_or_accepted timestamp this) as [[Hon Hlt] | Hacc].
    + right. now apply handleSnapshot_stale.
    + left. rewrite (handleSnapshot_accepted data timestamp this Hacc).
      rewrite (handleSnapshot_accepted data timestamp (snd (reset this)))
        by exact Hacc.
      reflexivity.
Qed.

(** X22.  [sort] only reorders: the array after it holds the same levels,
    highest price first, levels of one price in the order they had, and
    sorting once more changes nothing. *)
Theorem sort_is_a_stable_reordering (this : OrderBook) :
  let after := bookAfter sort this in
  Permutation after (book this)
  /\ sortedDescending after
  /\ (forall p,
        filter (fun e => Qeq_bool (price e) p) after
        = filter (fun e => Qeq_bool (price e) p) (book this))
  /\ bookAfter sort (snd (sort this)) = after.
Proof.
  cbv zeta. unfold bookAfter, sort, updateBook. cbn [snd book setBook].
  repeat split.
  - apply sort_perm.
  - apply sort_byPriceDescending.
  - intros p. apply filter_sort.
  - apply sort_sorted_id, sort_byPriceDescending.
Qed.

End OrderBook.

(** * The claims on sample books *)

(** C1 on a book capped at three levels: a snapshot of two sells and two
    buys, or a delta that inserts them, leaves all four.  The cap per side
    is [toFixed0 (3 / 2) = 2], so neither side is over it. *)
Theorem depth_bound_exceeded_at_odd_maxDepth :
  let levels : list (OrderBookLevelState unit) :=
    [lvl 102 Sell 1; lvl 101 Sell 1; lvl 100 Buy 1; lvl 99 Buy 1] in
  let snapshot := handleSnapshot levels 0 (@cappedBook unit 3) in
  let delta := handleDelta [] [] levels 0 (@cappedBook unit 3) in
  maxDepth (@cappedBook unit 3) = 3
  /\ toFixed0 (inject_Z 3 / 2) = 2
  /\ fst snapshot = Return tt
  /\ JsArray.length (book (snd snapshot)) = 4
  /\ fst delta = Return tt
  /\ JsArray.length (book (snd delta)) = 4.
Proof. cbv zeta. repeat split; reflexivity. Qed.

(** C2 on three sell levels: offset 3 is past the sell side and yet
    answers with the level in the middle, and offset -1 answers [null]
    where offset 1 answers 102.  [getBestBid], on the same prices as buys,
    answers [null] at offset 3 and treats -1 as 1. *)
Theorem getBestAsk_offset_out_of_range :
  let asks : @OrderBook unit :=
    setBook [lvl 103 Sell 1; lvl 102 Sell 1; lvl 101 Sell 1]
      (@sampleBook unit) in
  let bids : @OrderBook unit :=
    setBook [lvl 103 Buy 1; lvl 102 Buy 1; lvl 101 Buy 1] (@sampleBook unit) in
  fst (getBestAsk 3 asks) = Return (Some 102%Q)
  /\ fst (getBestAsk (-1) asks) = Return None
  /\ fst (getBestAsk 1 asks) = Return (Some 102%Q)
  /\ fst (getBestBid 3 bids) = Return None
  /\ fst (getBestBid (-1) bids) = fst (getBestBid 1 bids)
  /\ fst (getBestBid 1 bids) = Return (Some 102%Q).
Proof. cbv zeta. repeat split; reflexivity. Qed.

(** C3 on a book capped at four levels: of four buys two are to go.  The
    trimmer removes the buys at 102 and 101 and keeps the one at 100, the
    last of the sorted array; the two at the back are 101 and 100. *)
Theorem bottom_trim_keeps_last_level :
  let levels : list (OrderBookLevelState unit) :=
    [lvl 105 Sell 1; lvl 104 Sell 1; lvl 103 Buy 1; lvl 102 Buy 1;
     lvl 101 Buy 1; lvl 100 Buy 1] in
  let sorted := JsArray.sort byPriceDescending levels in
  let count := fold_left countLevel levels (mkCount 0 0) in
  let buysToTrim := buys count - toFixed0 (inject_Z 4 / 2) in
  let trimmed :=
    bookAfter (trimSideCount buysToTrim false)
      (setBook sorted (@cappedBook unit 4)) in
  sorted = levels
  /\ buysToTrim = 2
  /\ trimmed = [lvl 105 Sell 1; lvl 104 Sell 1; lvl 103 Buy 1; lvl 100 Buy 1]
  /\ trimmed <> firstn 4 sorted
  /\ book (snd (handleSnapshot levels 0 (@cappedBook unit 4))) = trimmed.
Proof.
  cbv zeta. repeat split; try reflexivity.
  vm_compute. discriminate.
Qed.

(** C4 at work: at 999 a snapshot and a delta are thrown out of a book
    last updated at 1000 and leave it as it was. *)
Lemma stale_update_rejected_witness :
  handleSnapshot [lvl 101 Sell 2] 999 (@checkedBook unit)
  = (Throw StaleUpdateError, @checkedBook unit)
  /\ handleDelta [] [lvl 100 Buy 3] [] 999 (@checkedBook unit)
     = (Throw StaleUpdateError, @checkedBook unit).
Proof.
  destruct (stale_update_rejected (@checkedBook unit) 999 eq_refl)
    as [Hstale _].
  exact (Hstale eq_refl [lvl 101 Sell 2] [] [lvl 100 Buy 3] []).
Defined.

(** C5 at work: a buy of 10 against sells that hold 5 in all. *)
Lemma getEstimatedSlippage_failures_witness :
  let this : @OrderBook unit :=
    setBook [lvl 101 Sell 2; lvl 100 Sell 3; lvl 99 Buy 50]
      (@sampleBook unit) in
  fst (getEstimatedSlippage 10 Buy this) = Throw InsufficientLiquidity.
Proof.
  cbv zeta.
  destruct (getEstimatedSlippage_failures 10 Buy
              (setBook [lvl 101 Sell 2; lvl 100 Sell 3; lvl 99 Buy 50]
                 (@sampleBook unit))) as (_ & _ & Hinsufficient & _).
  apply Hinsufficient.
  - reflexivity.
  - discriminate.
  - repeat constructor; discriminate.
  - reflexivity.
Defined.

(** C6 at work: inserting a sell at 2 into a book that has a buy at 2. *)
Lemma insert_existing_price_duplicates_witness :
  let this : @OrderBook unit :=
    setBook [lvl 3 Sell 1; lvl 2 Buy 1; lvl 1 Buy 1] (@sampleBook unit) in
  let level := lvl 2 Sell 7 in
  exists pre old post,
    book this = pre ++ old :: post
    /\ (EnumLevelProperty.price old == 2)%Q
    /\ countPrice 2 pre = 0%nat
    /\ countPrice 2 post = 0%nat
    /\ fst (handleDelta [] [] [level] 5 this) = Return tt
    /\ let after := book (snd (handleDelta [] [] [level] 5 this)) in
       after
       = JsArray.sort byPriceDescending (pre ++ level :: post ++ [level])
       /\ countPrice 2 after = 2%nat
       /\ filter (fun e => Qeq_bool (EnumLevelProperty.price e) 2) after
          = [level; level]
       /\ JsArray.length after = JsArray.length (book this) + 1.
Proof.
  cbv zeta.
  apply (insert_existing_price_duplicates (lvl 2 Sell 7) 5
           (setBook [lvl 3 Sell 1; lvl 2 Buy 1; lvl 1 Buy 1] (@sampleBook unit))).
  - left. reflexivity.
  - reflexivity.
  - discriminate.
Defined.

(** C8 as the claim has it fails on a bid at price 0: both sides are
    there at offset 0 and both spreads are [null]. *)
Lemma spread_null_with_both_sides_present :
  let this : @OrderBook unit :=
    snd (handleSnapshot [lvl 1 Sell 5; lvl 0 Buy 5] 0 (@sampleBook unit)) in
  fst (getBestBid 0 this) = Return (Some 0%Q)
  /\ fst (getBestAsk 0 this) = Return (Some 1%Q)
  /\ fst (getSpreadPercent 0 this) = Return None
  /\ fst (getSpreadBasisPoints 0 this) = Return None
  /\ ~ (fst (getSpreadPercent 0 this) = Return None
        <-> fst (getBestBid 0 this) = Return None
            \/ fst (getBestAsk 0 this) = Return None).
Proof.
  cbv zeta. repeat split; try reflexivity.
  intros [H _]. destruct (H eq_refl) as [E | E]; discriminate E.
Qed.

(** C8 at work: best bid 99 and best ask 101. *)
Lemma spread_formula_and_null_witness :
  let this : @OrderBook unit :=
    setBook [lvl 101 Sell 5; lvl 99 Buy 5] (@sampleBook unit) in
  fst (getSpreadPercent 0 this) = Return (Some ((1 - 99 / 101) * 100)%Q)
  /\ fst (getSpreadBasisPoints 0 this)
     = Return (Some ((1 - 99 / 101) * 10000)%Q).
Proof.
  cbv zeta.
  destruct (spread_formula_and_null 0
              (setBook [lvl 101 Sell 5; lvl 99 Buy 5] (@sampleBook unit)))
    as (bid & ask & Hbid & Hask & Hvalue & _).
  apply Hvalue.
  - injection Hbid as <-. reflexivity.
  - injection Hask as <-. reflexivity.
  - discriminate.
  - discriminate.
Defined.

(** * The further properties on sample books *)

Ltac by_computation := cbv; intuition (try discriminate; try reflexivity).

Ltac sorted_by_computation :=
  unfold sortedDescending; repeat constructor; by_computation.

(** X1 at work: a snapshot of two levels stores only those. *)
Lemma stored_levels_come_from_the_call_witness :
  let data : list (OrderBookLevelState unit) :=
    [lvl 2 Buy 1; lvl 3 Sell 1] in
  Forall (fun x => In x data)
    (book (snd (handleSnapshot data 5 (@sampleBook unit)))).
Proof.
  cbv zeta. apply Forall_forall. intros x.
  apply (proj1 (stored_levels_come_from_the_call 5 (@sampleBook unit)
                  (or_introl eq_refl))).
Defined.

(** X2 at work: deleting the price 100 from the sample book. *)
Lemma delete_removes_first_level_of_price_witness :
  let this := @tradedBook unit in
  let level := lvl 100 Sell 0 in
  let after := book (snd (handleDelta [level] [] [] 5 this)) in
  (countPrice 100 (book this) = 0%nat /\ after = book this)
  \/ exists pre old post,
       book this = pre ++ old :: post
       /\ countPrice 100 pre = 0%nat
       /\ (EnumLevelProperty.price old == 100)%Q
       /\ after = pre ++ post.
Proof.
  cbv zeta.
  apply (delete_removes_first_level_of_price (lvl 100 Sell 0) 5
           (@tradedBook unit)).
  - left. reflexivity.
  - sorted_by_computation.
  - by_computation.
Defined.

(** X3 at work: upserting a sell at 100 over the buy stored there. *)
Lemma upsert_replaces_in_place_witness :
  book (snd (handleDelta [] [lvl 100 Sell 7] [] 5 (@tradedBook unit)))
  = [lvl 103 Sell 2; lvl 102 Sell 3; lvl 100 Sell 7; lvl 99 Buy 5].
Proof.
  apply (upsert_replaces_in_place (lvl 100 Sell 7) (lvl 100 Buy 4)
           [lvl 103 Sell 2; lvl 102 Sell 3] [lvl 99 Buy 5] 5
           (@tradedBook unit)).
  - left. reflexivity.
  - sorted_by_computation.
  - by_computation.
  - reflexivity.
  - reflexivity.
  - reflexivity.
Defined.

(** X4 at work: the price 101 is not stored. *)
Lemma new_price_is_appended_witness :
  handleDelta [] [lvl 101 Sell 1] [] 5 (@tradedBook unit)
  = handleDelta [] [] [lvl 101 Sell 1] 5 (@tradedBook unit).
Proof.
  exact (proj1 (new_price_is_appended (lvl 101 Sell 1) 5 (@tradedBook unit)
                  eq_refl)).
Defined.

(** X5 at work: the price 100 is stored once. *)
Lemma delete_is_idempotent_witness :
  handleDelta [lvl 100 Buy 4; lvl 100 Buy 4] [] [] 5 (@tradedBook unit)
  = handleDelta [lvl 100 Buy 4] [] [] 5 (@tradedBook unit).
Proof.
  exact (proj1 (delete_is_idempotent (lvl 100 Buy 4) 5 (@tradedBook unit)
                  (le_n 1))).
Defined.

(** X6 at work: a delta with no batches on the sample book. *)
Lemma refeeding_own_levels_changes_nothing_witness :
  handleDelta [] [] [] 5 (@tradedBook unit)
  = (Return tt, setLastUpdateTimestamp 5 (@tradedBook unit)).
Proof.
  refine (proj1 (refeeding_own_levels_changes_nothing 5 (@tradedBook unit)
                   _ _ _)).
  - left. reflexivity.
  - sorted_by_computation.
  - by_computation.
Defined.

(** X7 at work: five levels fed to a book capped at four. *)
Lemma depth_after_a_call_witness :
  (JsArray.length
     (book (snd (perform
                   (Snapshot
                      [lvl 105 Sell 1; lvl 104 Sell 1; lvl 103 Sell 1;
                       lvl 100 Buy 1; lvl 99 Buy 1] 5)
                   (@cappedBook unit 4))))
   <=? 4) = true.
Proof.
  apply Z.leb_le.
  apply (depth_after_a_call
           (Snapshot
              [lvl 105 Sell 1; lvl 104 Sell 1; lvl 103 Sell 1;
               lvl 100 Buy 1; lvl 99 Buy 1] 5)
           (@cappedBook unit 4)); by_computation.
Defined.

(** X8 at work: six levels in a book capped at four, four of them buys. *)
Lemma trim_removes_the_excess_of_each_side_witness :
  let this : @OrderBook unit :=
    setBook [lvl 105 Sell 1; lvl 104 Sell 1; lvl 103 Buy 1; lvl 102 Buy 1;
             lvl 101 Buy 1; lvl 100 Buy 1] (@cappedBook unit 4) in
  JsArray.length (bookAfter trimToMaxDepth this) = 6 - 2 - 0.
Proof.
  cbv zeta.
  refine (proj2 (proj2 (trim_removes_the_excess_of_each_side
                          (setBook _ (@cappedBook unit 4)) _ _)));
    by_computation.
Defined.

(** X10 at work: a snapshot of three levels within the default depth. *)
Lemma snapshot_replaces_the_levels_witness :
  let data : list (OrderBookLevelState unit) :=
    [lvl 100 Buy 1; lvl 102 Sell 1; lvl 101 Sell 1] in
  book (snd (handleSnapshot data 5 (@tradedBook unit)))
  = JsArray.sort byPriceDescending data.
Proof.
  cbv zeta.
  refine (proj1 (proj2 (snapshot_replaces_the_levels _ 5 (@tradedBook unit)
                          (or_introl eq_refl)) _)).
  by_computation.
Defined.

(** X12 at work: three calls on a book last updated at 1000, the second
    stale. *)
Lemma checked_timestamps_never_go_back_witness :
  StronglySorted Z.le
    (map lastUpdateTimestamp
       (@checkedBook unit
        :: feed [Snapshot [lvl 101 Sell 1] 1001;
                 Delta [] [lvl 100 Buy 2] [] 999;
                 Delta [] [] [lvl 99 Buy 1] 1005]
             (@checkedBook unit))).
Proof.
  exact (checked_timestamps_never_go_back _ (@checkedBook unit) eq_refl).
Defined.

(** X13 at work: timestamps out of order on a book that does not check. *)
Lemma unchecked_feed_takes_every_timestamp_witness :
  let calls : list (@Call unit) :=
    [Snapshot [lvl 101 Sell 1] 9; Delta [] [lvl 100 Buy 2] [] 3] in
  map lastUpdateTimestamp (feed calls (@sampleBook unit))
  = map timestampOf calls.
Proof.
  cbv zeta.
  exact (proj1 (unchecked_feed_takes_every_timestamp _ (@sampleBook unit)
                  eq_refl)).
Defined.

(** X16 at work: the buy at 99 is not above the best bid. *)
Lemma best_prices_on_a_sorted_book_witness :
  exists bid,
    fst (getBestBid 0 (@tradedBook unit)) = Return (Some bid)
    /\ (99 <= bid)%Q.
Proof.
  refine (proj1 (best_prices_on_a_sorted_book (@tradedBook unit) _)
            (lvl 99 Buy 5) _ eq_refl).
  - sorted_by_computation.
  - simpl. auto.
Defined.

(** X17 at work: best bid 100, best ask 102. *)
Lemma spread_sign_and_scale_witness :
  exists bid ask points,
    fst (getBestBid 0 (@tradedBook unit)) = Return (Some bid)
    /\ fst (getBestAsk 0 (@tradedBook unit)) = Return (Some ask)
    /\ fst (getSpreadBasisPoints 0 (@tradedBook unit))
       = Return (Some points)
    /\ (points == (1 - 100 / 102) * 100 * 100)%Q
    /\ ((0 < ask)%Q -> ((0 < (1 - 100 / 102) * 100)%Q <-> (bid < ask)%Q)).
Proof.
  exact (spread_sign_and_scale 0 (@tradedBook unit)
           ((1 - 100 / 102) * 100)%Q eq_refl).
Defined.

(** X18 at work: a buy of 4 against sells at 102 and 103. *)
Lemma execution_price_within_the_levels_witness :
  exists r,
    fst (getEstimatedSlippage 4 Buy (@tradedBook unit)) = Return (Some r)
    /\ (102 <= executionPrice r <= 103)%Q.
Proof.
  eexists. split; [lazy; reflexivity|].
  apply (execution_price_within_the_levels 4 Buy (@tradedBook unit)).
  - repeat constructor; by_computation.
  - repeat constructor; by_computation.
  - reflexivity.
Defined.

(** X19 at work: a sell of 6 against buys at 100 and 99. *)
Lemma slippage_is_never_negative_witness :
  exists r,
    fst (getEstimatedSlippage 6 Sell (@tradedBook unit)) = Return (Some r)
    /\ (0 < executionPrice r)%Q
    /\ (0 <= slippagePercent r)%Q
    /\ (0 <= slippageBasisPoints r)%Q.
Proof.
  eexists. split; [lazy; reflexivity|].
  refine ((fun H => conj (proj1 H)
                      (conj (proj1 (proj2 H)) (proj1 (proj2 (proj2 H)))))
            (slippage_is_never_negative 6 Sell (@tradedBook unit) _ _ _ _)).
  - sorted_by_computation.
  - repeat constructor; by_computation.
  - reflexivity.
Defined.

(** X20 at work: a buy of 10 against two sell levels at 100. *)
Lemma one_price_fills_without_slippage_witness :
  exists r,
    fst (getEstimatedSlippage 10 Buy
           (setBook [lvl 100 Sell 4; lvl 100 Sell 8] (@sampleBook unit)))
    = Return (Some r)
    /\ (executionPrice r == 100)%Q
    /\ (slippagePercent r == 0)%Q
    /\ (slippageBasisPoints r == 0)%Q.
Proof.
  eexists. split; [lazy; reflexivity|].
  apply (one_price_fills_without_slippage 10 100 Buy
           (setBook [lvl 100 Sell 4; lvl 100 Sell 8] (@sampleBook unit))).
  - repeat constructor; by_computation.
  - reflexivity.
Defined.

(** * The estimate on doubles *)

(** C5 as the claim has it fails on the doubles the program computes in.
    Bids of 1 at 101 and of 2^53 at 100 hold less than a sell of 2^53 + 2,
    counted exactly or in doubles, and yet the estimate returns:
    [2^53 + 2 - 1] rounds to [2^53], which the second bid fills.  Sells of
    0.2 at 100 and 0.7 at 101 against a buy of 0.9 do the same.  The exact
    model throws [InsufficientLiquidity] on the bids. *)
#[warnings="-inexact-float"]
Lemma insufficient_liquidity_missed_in_doubles :
  let bids :=
    [Double.lvl 101 Buy 1; Double.lvl 100 Buy 9007199254740992] in
  let asks := [Double.lvl 101 Sell 0.7; Double.lvl 100 Sell 0.2] in
  (1 + 9007199254740992 < 9007199254740994)%Z
  /\ (1 + 9007199254740992 <? 9007199254740994)%float = true
  /\ (9007199254740994 - 1)%float = 9007199254740992%float
  /\ (exists r,
        Double.getEstimatedSlippage 9007199254740994 Sell bids
        = Return (Some r))
  /\ (0.2 + 0.7 <? 0.9)%float = true
  /\ (exists r,
        Double.getEstimatedSlippage 0.9 Buy asks = Return (Some r))
  /\ fst (getEstimatedSlippage 9007199254740994 Sell
            (setBook [lvl 101 Buy 1; lvl 100 Buy 9007199254740992]
               (@sampleBook unit)))
     = Throw InsufficientLiquidity.
Proof.
  cbv zeta. repeat split; try reflexivity.
  - eexists. lazy. reflexivity.
  - eexists. lazy. reflexivity.
Qed.

(** Rounding in the returned numbers.  One sell of 1000 at 0.1 and a buy
    of 0.7: on doubles the estimate executes a little under 0.1, so the
    slippage comes out negative where the exact estimate has none.  The
    two sells of C9 give 100.5 on doubles too, and a slippage a little
    under 0.5 percent. *)
#[warnings="-inexact-float"]
Lemma double_estimate_rounds :
  (exists r,
     Double.getEstimatedSlippage 0.7 Buy [Double.lvl 0.1 Sell 1000]
     = Return (Some r)
     /\ (Double.executionPrice r <? 0.1)%float = true
     /\ (Double.slippagePercent r <? 0)%float = true)
  /\ (exists r,
        Double.getEstimatedSlippage 10 Buy
          [Double.lvl 101 Sell 5; Double.lvl 100 Sell 5]
        = Return (Some r)
        /\ Double.executionPrice r = 100.5%float
        /\ (Double.slippagePercent r <? 0.5)%float = true
        /\ (0.4999999999999 <? Double.slippagePercent r)%float = true).
Proof.
  split; eexists; (split; [lazy; reflexivity|]); repeat split; reflexivity.
Qed.
